(** * SmartHR MCP server: request models and API client

    A shallow embedding of [smarthr_mcp_server/smarthr_client.py]:
    the pydantic request models with their validators, and the methods of
    [SmartHRClient], which issue HTTP requests through the [requests]
    library.  Network traffic is explicit: every client method runs in a
    monad that reads the remote side, appends to the list of requests sent
    so far, and ends with a returned value or a raised exception. *)

From Stdlib Require Import ZArith Lia Ascii String Btauto.
From stdpp Require Import base option list strings pretty mapset gmap.

Set Warnings "-register-all,-clear-no-such-hyp".

Local Open Scope string_scope.
Local Open Scope Z_scope.

(** ** Python values *)

(** Scalars: what callers pass as identifiers, page numbers and filters
    (enum members of [str, Enum] classes are their string value). *)
Inductive atom :=
| ANone
| ABool (b : bool)
| AInt (z : Z)
| AStr (s : string).

(** Structured values: decoded JSON bodies, [dict] payloads and pydantic
    model instances.  A [dict] is a finite map, so two dicts are equal when
    they hold the same items, as with Python's [==].  [PModel vals set_] is
    a model instance: its field values ([__dict__]) and the names of the
    fields the caller supplied ([__fields_set__]). *)
Inductive pyval :=
| PNone
| PBool (b : bool)
| PInt (z : Z)
| PStr (s : string)
| PList (l : list pyval)
| PDict (d : gmap string pyval)
| PModel (vals : gmap string pyval) (set_ : gset string).

Definition of_atom (a : atom) : pyval :=
  match a with
  | ANone => PNone
  | ABool b => PBool b
  | AInt z => PInt z
  | AStr s => PStr s
  end.

(** [bool(v)]: Python truthiness. *)
Definition truthy (a : atom) : bool :=
  match a with
  | ANone => false
  | ABool b => b
  | AInt z => negb (z =? 0)
  | AStr s => negb (String.eqb s "")
  end.

Definition py_truthy (v : pyval) : bool :=
  match v with
  | PNone => false
  | PBool b => b
  | PInt z => negb (z =? 0)
  | PStr s => negb (String.eqb s "")
  | PList l => negb (Nat.eqb (length l) 0)
  | PDict d => negb (Nat.eqb (size d) 0)
  | PModel _ _ => true
  end.

(** [str(v)], as an f-string interpolates it. *)
Definition py_str (a : atom) : string :=
  match a with
  | ANone => "None"
  | ABool true => "True"
  | ABool false => "False"
  | AInt z => pretty z
  | AStr s => s
  end.

(** ** HTTP exchange *)

Inductive http_method := GET | POST | PUT | PATCH | DELETE.

(** One call of [requests.request] (or [requests.get], [requests.post],
    ...): the method, the URL and the keyword arguments [params], [json]
    and [headers]; [None] stands for a keyword that is not passed. *)
Record Request := mkRequest {
  req_method : http_method;
  req_url : string;
  req_params : option (gmap string atom);
  req_json : option pyval;
  req_headers : option (gmap string string)
}.

(** What [requests] hands back.  [json_body] is the value of
    [response.json()]: [None] when decoding [text] raises. *)
Record Response := mkResponse {
  status_code : Z;
  text : string;
  json_body : option pyval
}.

(** A pydantic validation error: the location (field names, outermost
    first) and the message. *)
Definition verror : Type := list string * string.

Inductive exn :=
| HTTPError (r : Response)
| ValidationError (errs : list verror)
| JSONDecodeError
| ConnectionError
| ValueError (msg : string)
| TypeError (msg : string).

Inductive outcome (A : Type) :=
| Return (a : A)
| Raise (e : exn).
Arguments Return {A} a.
Arguments Raise {A} e.

(** The remote side: given the requests already sent and the one being
    sent, either a response arrives or the transport raises. *)
Definition network := list Request -> Request -> option Response.

(** The environment of a call: the remote API and the calendar date that
    [datetime.now().date()] and [datetime.today().date()] read (one date
    for the whole call). *)
Record date := mkDate { year : Z; month : Z; day : Z }.

Record world := mkWorld { remote : network; today : date }.

(** Client computations: read the world, extend the log of requests. *)
Definition M (A : Type) : Type := world -> list Request -> outcome A * list Request.

Definition ret {A} (a : A) : M A := fun _ log => (Return a, log).
Definition raise {A} (e : exn) : M A := fun _ log => (Raise e, log).
Definition bind {A B} (m : M A) (k : A -> M B) : M B :=
  fun w log =>
    match m w log with
    | (Return a, log') => k a w log'
    | (Raise e, log') => (Raise e, log')
    end.
Definition lift {A} (o : outcome A) : M A := fun _ log => (o, log).
Definition get_today : M date := fun w log => (Return (today w), log).

Notation "x <- m ;; k" := (bind m (fun x => k))
  (at level 100, m at next level, right associativity).
Notation "m ;;; k" := (bind m (fun _ => k))
  (at level 100, right associativity).

(** [requests.request(method, url, ...)]: exactly one exchange. *)
Definition send (r : Request) : M Response :=
  fun w log =>
    match remote w log r with
    | Some resp => (Return resp, (log ++ [r])%list)
    | None => (Raise ConnectionError, (log ++ [r])%list)
    end.

(** The statuses [raise_for_status] raises for: 4xx and 5xx. *)
Definition is_http_error (status : Z) : bool :=
  (400 <=? status) && (status <? 600).

(** [response.raise_for_status()]; the [HTTPError] holds the response. *)
Definition raise_for_status (r : Response) : M unit :=
  if is_http_error (status_code r) then raise (HTTPError r) else ret tt.

(** [response.json()]. *)
Definition response_json (r : Response) : M pyval :=
  match json_body r with
  | Some v => ret v
  | None => raise JSONDecodeError
  end.

(** The requests a computation sends when started with an empty log, and
    how it ends. *)
Definition sent {A} (m : M A) (w : world) : list Request := snd (m w []).
Definition result {A} (m : M A) (w : world) : outcome A := fst (m w []).

(** ** Pydantic models (pydantic v1) *)

Definition is_none (v : pyval) : bool :=
  match v with PNone => true | _ => false end.

(** [_iter]: whether [.dict(exclude_unset=.., exclude_none=..)] keeps a
    field, decided on the stored value before it is converted. *)
Definition keeps (exclude_unset exclude_none : bool) (is_set : bool) (v : pyval) : bool :=
  (negb exclude_unset || is_set) && (negb exclude_none || negb (is_none v)).

(** [_get_value(v, to_dict=True, ...)]: a nested model becomes the dict of
    the fields it keeps under the same flags; lists and dicts are converted
    item by item. *)
Fixpoint get_value (exclude_unset exclude_none : bool) (v : pyval) : pyval :=
  match v with
  | PModel vals set_ =>
      PDict (merge (fun field member =>
                      match field with
                      | Some x =>
                          if keeps exclude_unset exclude_none
                               (match member with Some _ => true | None => false end) x
                          then Some (get_value exclude_unset exclude_none x)
                          else None
                      | None => None
                      end) vals (mapset_car set_))
  | PDict d => PDict (get_value exclude_unset exclude_none <$> d)
  | PList l => PList (get_value exclude_unset exclude_none <$> l)
  | _ => v
  end.

(** A validated model instance. *)
Record model := mkModel { values : gmap string pyval; fields_set : gset string }.

Definition to_pyval (m : model) : pyval := PModel (values m) (fields_set m).

(** [m.dict(exclude_unset=.., exclude_none=..)]; both flags default to
    [False]. *)
Definition dict (exclude_unset exclude_none : bool) (m : model) : pyval :=
  get_value exclude_unset exclude_none (to_pyval m).

(** How a caller passes a field of type [T]: not at all, or with a value
    that may be [None]. *)
Inductive supply (T : Type) :=
| Omitted
| Supplied (v : option T).
Arguments Omitted {T}.
Arguments Supplied {T} v.

(** Supplied, and not as [None]. *)
Definition given {T} (s : supply T) : bool :=
  match s with
  | Supplied (Some _) => true
  | _ => false
  end.

(** A class validator returns the value or raises [ValueError(msg)]. *)
Inductive checked (T : Type) :=
| Accept (v : T)
| Reject (msg : string).
Arguments Accept {T} v.
Arguments Reject {T} msg.

Definition no_validator {T} (v : T) : checked T := Accept v.

(** What validating one field gives: the stored value and whether the field
    counts as set, or that field's errors. *)
Inductive field_result :=
| FieldOk (v : pyval) (is_set : bool)
| FieldErr (errs : list verror).

Inductive validation :=
| Valid (m : model)
| Invalid (errs : list verror).

(** A field declared [name: T]: it must be supplied and must not be
    [None]; then the class validator runs. *)
Definition required {T} (inj : T -> pyval) (validator : T -> checked T)
    (s : supply T) : field_result :=
  match s with
  | Omitted => FieldErr [([], "field required")]
  | Supplied None => FieldErr [([], "none is not an allowed value")]
  | Supplied (Some v) =>
      match validator v with
      | Accept v' => FieldOk (inj v') true
      | Reject msg => FieldErr [([], msg)]
      end
  end.

(** A field declared [name: Optional[T] = default]: when omitted it takes
    the default and no validator runs ([always=False]); when supplied, even
    as [None], the class validator runs on it. *)
Definition optional {T} (inj : T -> pyval) (default : pyval)
    (validator : option T -> checked (option T)) (s : supply T) : field_result :=
  match s with
  | Omitted => FieldOk default false
  | Supplied o =>
      match validator o with
      | Accept o' => FieldOk (from_option inj PNone o') true
      | Reject msg => FieldErr [([], msg)]
      end
  end.

Definition at_field (name : string) (errs : list verror) : list verror :=
  (fun e : verror => (name :: e.1, e.2)) <$> errs.

(** [validate_model]: the fields are validated in declaration order; every
    field that fails contributes its error, the others their value. *)
Fixpoint collect (fs : list (string * field_result)) : model * list verror :=
  match fs with
  | [] => (mkModel ∅ ∅, [])
  | (name, r) :: rest =>
      let '(m, errs) := collect rest in
      match r with
      | FieldOk v is_set =>
          (mkModel (<[name := v]> (values m))
                   (if is_set then {[name]} ∪ fields_set m else fields_set m),
           errs)
      | FieldErr e => (m, (at_field name e ++ errs)%list)
      end
  end.

Definition construct (fs : list (string * field_result)) : validation :=
  let '(m, errs) := collect fs in
  match errs with
  | [] => Valid m
  | _ => Invalid errs
  end.

(** A field whose type is another model, given as that model's fields. *)
Definition nested {D} (sub : D -> validation) (d : D) : field_result :=
  match sub d with
  | Valid m => FieldOk (to_pyval m) true
  | Invalid errs => FieldErr errs
  end.

Definition optional_model {D} (sub : D -> validation) (s : supply D) : field_result :=
  match s with
  | Omitted => FieldOk PNone false
  | Supplied None => FieldOk PNone true
  | Supplied (Some d) => nested sub d
  end.

Definition is_valid (v : validation) : bool :=
  match v with Valid _ => true | Invalid _ => false end.

(** A field passes when it contributes no error. *)
Definition passes (r : field_result) : bool :=
  match r with
  | FieldOk _ _ => true
  | FieldErr [] => true
  | FieldErr (_ :: _) => false
  end.

(** ** Calendar dates and [datetime.strptime(v, '%Y-%m-%d')] *)

Definition is_leap (y : Z) : bool :=
  (y mod 4 =? 0) && (negb (y mod 100 =? 0) || (y mod 400 =? 0)).

Definition days_in_month (y m : Z) : Z :=
  if m =? 2 then (if is_leap y then 29 else 28)
  else if (m =? 4) || (m =? 6) || (m =? 9) || (m =? 11) then 30
  else 31.

(** [datetime.date(y, m, d)] exists for years 1 to 9999. *)
Definition valid_date (y m d : Z) : bool :=
  (1 <=? y) && (y <=? 9999) && (1 <=? m) && (m <=? 12) &&
  (1 <=? d) && (d <=? days_in_month y m).

(** Dates compare as the triples (year, month, day). *)
Definition date_ltb (a b : date) : bool :=
  (year a <? year b) ||
  ((year a =? year b) &&
   ((month a <? month b) || ((month a =? month b) && (day a <? day b)))).

(** The decimal digit an ASCII character stands for. *)
Definition digit (c : ascii) : option Z :=
  let n := Z.of_N (N_of_ascii c) in
  if (48 <=? n) && (n <=? 57) then Some (n - 48) else None.

Definition between (lo hi : Z) (n : Z) : bool := (lo <=? n) && (n <=? hi).

(** One or two digit characters at the head of a string, each within its
    range: one alternative of the directive's regular expression. *)
Definition one_digit (lo hi : Z) (s : string) : option (Z * string) :=
  match s with
  | String a rest =>
      match digit a with
      | Some x => if between lo hi x then Some (x, rest) else None
      | None => None
      end
  | _ => None
  end.

Definition two_digits (lo1 hi1 lo2 hi2 : Z) (s : string) : option (Z * string) :=
  match one_digit lo1 hi1 s with
  | Some (x, rest) =>
      match one_digit lo2 hi2 rest with
      | Some (y, rest') => Some (10 * x + y, rest')
      | None => None
      end
  | None => None
  end.

Definition orelse {A} (a b : option A) : option A :=
  match a with Some _ => a | None => b end.

Definition literal (c : ascii) (s : string) : option string :=
  match s with
  | String a rest => if Ascii.eqb a c then Some rest else None
  | _ => None
  end.

(** [%Y]: four digits. *)
Definition directive_Y (s : string) : option (Z * string) :=
  match two_digits 0 9 0 9 s with
  | Some (hi, rest) =>
      match two_digits 0 9 0 9 rest with
      | Some (lo, rest') => Some (100 * hi + lo, rest')
      | None => None
      end
  | None => None
  end.

(** [%m]: 1[0-2] | 0[1-9] | [1-9], tried in this order. *)
Definition directive_m (s : string) : option (Z * string) :=
  orelse (two_digits 1 1 0 2 s) (orelse (two_digits 0 0 1 9 s) (one_digit 1 9 s)).

(** [%d]: 3[01] | [12][0-9] | 0[1-9] | [1-9] | space [1-9], tried in this
    order. *)
Definition directive_d (s : string) : option (Z * string) :=
  orelse (two_digits 3 3 0 1 s)
    (orelse (two_digits 1 2 0 9 s)
       (orelse (two_digits 0 0 1 9 s)
          (orelse (one_digit 1 9 s)
             (match literal " "%char s with
              | Some rest => one_digit 1 9 rest
              | None => None
              end)))).

(** Text made of ASCII characters only. *)
Fixpoint is_ascii (s : string) : bool :=
  match s with
  | EmptyString => true
  | String a rest => (Z.of_N (N_of_ascii a) <? 128) && is_ascii rest
  end.

(** The date [datetime.strptime(v, '%Y-%m-%d').date()] returns, or [None]
    where it raises [ValueError]: the text does not match the format, text
    remains after the match, or the numbers are not a date of the
    calendar.  Only ASCII digits are read here, so a result [None] speaks
    for the library on ASCII text alone: where the format has a backslash-d
    the library also reads the decimal digits of other scripts. *)
Definition strptime (v : string) : option date :=
  match directive_Y v with
  | Some (y, s1) =>
      match literal "-"%char s1 with
      | Some s2 =>
          match directive_m s2 with
          | Some (m, s3) =>
              match literal "-"%char s3 with
              | Some s4 =>
                  match directive_d s4 with
                  | Some (d, "") =>
                      if valid_date y m d then Some (mkDate y m d) else None
                  | _ => None
                  end
              | None => None
              end
          | None => None
          end
      | None => None
      end
  | None => None
  end.

(** ** The request models *)

(** ['/' in v] *)
Fixpoint contains (c : ascii) (s : string) : bool :=
  match s with
  | EmptyString => false
  | String a rest => Ascii.eqb a c || contains c rest
  end.

Module Address.
Record fields := mk {
  country_number : supply string;
  zip_code : supply string;
  pref : supply string;
  city : supply string;
  street : supply string;
  building : supply string;
  literal_yomi : supply string
}.

Definition new (d : fields) : validation :=
  construct
    [("country_number", optional PStr PNone no_validator (country_number d));
     ("zip_code", optional PStr PNone no_validator (zip_code d));
     ("pref", optional PStr PNone no_validator (pref d));
     ("city", optional PStr PNone no_validator (city d));
     ("street", optional PStr PNone no_validator (street d));
     ("building", optional PStr PNone no_validator (building d));
     ("literal_yomi", optional PStr PNone no_validator (literal_yomi d))].
End Address.

(** The first [AttachmentParams] of the file, which the dependent models
    refer to: both fields are required. *)
Module AttachmentParams.
Record fields := mk {
  file_name : supply string;
  content : supply string
}.

Definition new (d : fields) : validation :=
  construct
    [("file_name", required PStr no_validator (file_name d));
     ("content", required PStr no_validator (content d))].
End AttachmentParams.

(** The enum [LiveTogetherType], as the validator of a field of that type. *)
Definition LiveTogetherType (v : string) : checked string :=
  if String.eqb v "living_together" || String.eqb v "living_separately"
  then Accept v
  else Reject "value is not a valid enumeration member".

Module DepartmentCreateRequest.
Definition validate_name (v : string) : checked string :=
  if contains "/"%char v
  then Reject "部署名に'/'を含めることはできません"
  else Accept v.

Definition new (name : supply string) (position : supply Z)
    (code parent_id : supply string) : validation :=
  construct
    [("name", required PStr validate_name name);
     ("position", optional PInt PNone no_validator position);
     ("code", optional PStr PNone no_validator code);
     ("parent_id", optional PStr PNone no_validator parent_id)].
End DepartmentCreateRequest.

Module JobTitleCreateRequest.
Definition validate_rank (v : Z) : checked Z :=
  if (v <? 1) || (v >? 99999)
  then Reject "役職のランクは1〜99999の範囲で指定してください"
  else Accept v.

Definition new (name : supply string) (rank : supply Z) (code : supply string)
    : validation :=
  construct
    [("name", required PStr no_validator name);
     ("rank", required PInt validate_rank rank);
     ("code", optional PStr PNone no_validator code)].
End JobTitleCreateRequest.

Module JobTitleUpdateRequest.
Definition validate_rank (v : Z) : checked Z :=
  if (v <? 1) || (v >? 99999)
  then Reject "役職のランクは1〜99999の範囲で指定してください"
  else Accept v.

Definition new (name : supply string) (rank : supply Z) : validation :=
  construct
    [("name", required PStr no_validator name);
     ("rank", required PInt validate_rank rank)].
End JobTitleUpdateRequest.

Module JobTitlePartialUpdateRequest.
Definition validate_rank (v : option Z) : checked (option Z) :=
  match v with
  | Some r =>
      if (r <? 1) || (r >? 99999)
      then Reject "役職のランクは1〜99999の範囲で指定してください"
      else Accept v
  | None => Accept v
  end.

Definition new (name : supply string) (rank : supply Z) (code : supply string)
    : validation :=
  construct
    [("name", optional PStr PNone no_validator name);
     ("rank", optional PInt PNone validate_rank rank);
     ("code", optional PStr PNone no_validator code)].
End JobTitlePartialUpdateRequest.

Module EmploymentTypeCreateRequest.
Definition new (name code : supply string) : validation :=
  construct
    [("name", required PStr no_validator name);
     ("code", optional PStr PNone no_validator code)].
End EmploymentTypeCreateRequest.

Module EmploymentTypeUpdateRequest.
Definition new (name : supply string) : validation :=
  construct [("name", required PStr no_validator name)].
End EmploymentTypeUpdateRequest.

Module EmploymentTypePartialUpdateRequest.
Definition new (name code : supply string) : validation :=
  construct
    [("name", optional PStr PNone no_validator name);
     ("code", optional PStr PNone no_validator code)].
End EmploymentTypePartialUpdateRequest.

Module DepartmentDiscontinueRequest.
(** The [try] block parses the date and raises when it is after today;
    the [except ValueError] clause catches both failures and raises the
    format message instead.  [now] is [datetime.now().date()]. *)
Definition validate_discontinued_date (now : date) (v : string) : checked string :=
  match strptime v with
  | Some discontinued_date =>
      if date_ltb now discontinued_date
      then Reject "廃止日は YYYY-MM-DD 形式で指定してください"
      else Accept v
  | None => Reject "廃止日は YYYY-MM-DD 形式で指定してください"
  end.

Definition new (now : date) (discontinued_date : supply string) : validation :=
  construct
    [("discontinued_date",
      required PStr (validate_discontinued_date now) discontinued_date)].
End DepartmentDiscontinueRequest.

Module DepartmentPartialUpdateRequest.
Definition validate_name (v : option string) : checked (option string) :=
  match v with
  | Some n =>
      if contains "/"%char n
      then Reject "部署名に'/'を含めることはできません"
      else Accept v
  | None => Accept v
  end.

Definition new (name : supply string) (position : supply Z)
    (code parent_id : supply string) : validation :=
  construct
    [("name", optional PStr PNone validate_name name);
     ("position", optional PInt PNone no_validator position);
     ("code", optional PStr PNone no_validator code);
     ("parent_id", optional PStr PNone no_validator parent_id)].
End DepartmentPartialUpdateRequest.

Module DepartmentUpdateRequest.
Definition validate_name (v : string) : checked string :=
  if contains "/"%char v
  then Reject "部署名に'/'を含めることはできません"
  else Accept v.

Definition new (name : supply string) (position : supply Z)
    (code parent_id : supply string) : validation :=
  construct
    [("name", required PStr validate_name name);
     ("position", optional PInt PNone no_validator position);
     ("code", optional PStr PNone no_validator code);
     ("parent_id", optional PStr PNone no_validator parent_id)].
End DepartmentUpdateRequest.

Module GradeCreateRequest.
Definition validate_rank (v : Z) : checked Z :=
  if (v <? 1) || (v >? 99999)
  then Reject "等級のランクは1〜99999の範囲で指定してください"
  else Accept v.

Definition new (name : supply string) (rank : supply Z) : validation :=
  construct
    [("name", required PStr no_validator name);
     ("rank", required PInt validate_rank rank)].
End GradeCreateRequest.

Module GradeUpdateRequest.
Definition validate_rank (v : Z) : checked Z :=
  if (v <? 1) || (v >? 99999)
  then Reject "等級のランクは1〜99999の範囲で指定してください"
  else Accept v.

Definition new (name : supply string) (rank : supply Z) : validation :=
  construct
    [("name", required PStr no_validator name);
     ("rank", required PInt validate_rank rank)].
End GradeUpdateRequest.

Module GradePartialUpdateRequest.
Definition validate_rank (v : option Z) : checked (option Z) :=
  match v with
  | Some r =>
      if (r <? 1) || (r >? 99999)
      then Reject "等級のランクは1〜99999の範囲で指定してください"
      else Accept v
  | None => Accept v
  end.

Definition new (name : supply string) (rank : supply Z) : validation :=
  construct
    [("name", optional PStr PNone no_validator name);
     ("rank", optional PInt PNone validate_rank rank)].
End GradePartialUpdateRequest.

Module JobCategoryCreateRequest.
Definition new (name : supply string) : validation :=
  construct [("name", required PStr no_validator name)].
End JobCategoryCreateRequest.

Module JobCategoryUpdateRequest.
Definition new (name : supply string) : validation :=
  construct [("name", required PStr no_validator name)].
End JobCategoryUpdateRequest.

Module JobCategoryPartialUpdateRequest.
Definition new (name : supply string) : validation :=
  construct [("name", optional PStr PNone no_validator name)].
End JobCategoryPartialUpdateRequest.

(** The fields the three dependent models declare, in declaration order. *)
Module Dependent.
Record fields := mk {
  relation_id : supply string;
  is_spouse : supply bool;
  last_name : supply string;
  first_name : supply string;
  last_name_yomi : supply string;
  first_name_yomi : supply string;
  birth_at : supply string;
  moved_at : supply string;
  gender : supply string;
  job : supply string;
  basic_pension_number : supply string;
  basic_pension_number_image : supply AttachmentParams.fields;
  live_together_type : supply string;
  address : supply Address.fields;
  tel_number : supply string;
  handicapped_type : supply string;
  handicapped_note_type : supply string;
  handicapped_note_delivery_at : supply string;
  handicapped_image : supply AttachmentParams.fields;
  remittance_to_relative : supply bool;
  remittance_image1 : supply AttachmentParams.fields;
  remittance_image2 : supply AttachmentParams.fields;
  remittance_image3 : supply AttachmentParams.fields;
  international_student : supply bool;
  international_student_image : supply AttachmentParams.fields;
  social_insurance_support_type : supply string;
  income : supply Z;
  monthly_income : supply Z;
  soc_ins_qualified_at : supply string;
  soc_ins_qualified_reason : supply string;
  soc_ins_disqualified_at : supply string;
  disqualified_reason_type : supply string;
  disqualified_reason : supply string;
  tax_law_support_type : supply string;
  tax_deduction_income : supply Z;
  tax_deduction_qualified_at : supply string;
  tax_deduction_qualified_reason : supply string;
  tax_deduction_disqualified_at : supply string;
  tax_deduction_disqualified_reason_type : supply string;
  tax_deduction_disqualified_reason : supply string;
  maternity_handbook_image : supply AttachmentParams.fields;
  kinship_image : supply AttachmentParams.fields;
  code : supply string
}.

(** No field supplied. *)
Definition nothing : fields :=
  mk Omitted Omitted Omitted Omitted Omitted Omitted Omitted Omitted Omitted
     Omitted Omitted Omitted Omitted Omitted Omitted Omitted Omitted Omitted
     Omitted Omitted Omitted Omitted Omitted Omitted Omitted Omitted Omitted
     Omitted Omitted Omitted Omitted Omitted Omitted Omitted Omitted Omitted
     Omitted Omitted Omitted Omitted Omitted Omitted Omitted.
(** Only the six fields without a default are supplied. *)
Definition minimal (relation_id_v last_name_v first_name_v birth_at_v gender_v
    live_together_type_v : string) : fields :=
  {|
     relation_id := Supplied (Some relation_id_v);
     is_spouse := Omitted;
     last_name := Supplied (Some last_name_v);
     first_name := Supplied (Some first_name_v);
     last_name_yomi := Omitted;
     first_name_yomi := Omitted;
     birth_at := Supplied (Some birth_at_v);
     moved_at := Omitted;
     gender := Supplied (Some gender_v);
     job := Omitted;
     basic_pension_number := Omitted;
     basic_pension_number_image := Omitted;
     live_together_type := Supplied (Some live_together_type_v);
     address := Omitted;
     tel_number := Omitted;
     handicapped_type := Omitted;
     handicapped_note_type := Omitted;
     handicapped_note_delivery_at := Omitted;
     handicapped_image := Omitted;
     remittance_to_relative := Omitted;
     remittance_image1 := Omitted;
     remittance_image2 := Omitted;
     remittance_image3 := Omitted;
     international_student := Omitted;
     international_student_image := Omitted;
     social_insurance_support_type := Omitted;
     income := Omitted;
     monthly_income := Omitted;
     soc_ins_qualified_at := Omitted;
     soc_ins_qualified_reason := Omitted;
     soc_ins_disqualified_at := Omitted;
     disqualified_reason_type := Omitted;
     disqualified_reason := Omitted;
     tax_law_support_type := Omitted;
     tax_deduction_income := Omitted;
     tax_deduction_qualified_at := Omitted;
     tax_deduction_qualified_reason := Omitted;
     tax_deduction_disqualified_at := Omitted;
     tax_deduction_disqualified_reason_type := Omitted;
     tax_deduction_disqualified_reason := Omitted;
     maternity_handbook_image := Omitted;
     kinship_image := Omitted;
     code := Omitted
  |}.

(** Whether the six fields without a default are supplied and not
    [None]. *)
Definition required_given (d : fields) : bool :=
  given (relation_id d) && given (last_name d) && given (first_name d) &&
  given (birth_at d) && given (gender d) && given (live_together_type d).
End Dependent.

Module DependentCreateRequest.
Import Dependent.

Definition validate_gender (v : string) : checked string :=
  if String.eqb v "male" || String.eqb v "female"
  then Accept v
  else Reject "性別（gender）は 'male' または 'female' を指定してください".

Definition new (d : fields) : validation :=
  construct
    [("relation_id", required PStr no_validator (relation_id d));
     ("is_spouse", optional PBool PNone no_validator (is_spouse d));
     ("last_name", required PStr no_validator (last_name d));
     ("first_name", required PStr no_validator (first_name d));
     ("last_name_yomi", optional PStr PNone no_validator (last_name_yomi d));
     ("first_name_yomi", optional PStr PNone no_validator (first_name_yomi d));
     ("birth_at", required PStr no_validator (birth_at d));
     ("moved_at", optional PStr PNone no_validator (moved_at d));
     ("gender", required PStr validate_gender (gender d));
     ("job", optional PStr PNone no_validator (job d));
     ("basic_pension_number", optional PStr PNone no_validator (basic_pension_number d));
     ("basic_pension_number_image", optional_model AttachmentParams.new (basic_pension_number_image d));
     ("live_together_type", required PStr LiveTogetherType (live_together_type d));
     ("address", optional_model Address.new (address d));
     ("tel_number", optional PStr PNone no_validator (tel_number d));
     ("handicapped_type", optional PStr PNone no_validator (handicapped_type d));
     ("handicapped_note_type", optional PStr PNone no_validator (handicapped_note_type d));
     ("handicapped_note_delivery_at", optional PStr PNone no_validator (handicapped_note_delivery_at d));
     ("handicapped_image", optional_model AttachmentParams.new (handicapped_image d));
     ("remittance_to_relative", optional PBool PNone no_validator (remittance_to_relative d));
     ("remittance_image1", optional_model AttachmentParams.new (remittance_image1 d));
     ("remittance_image2", optional_model AttachmentParams.new (remittance_image2 d));
     ("remittance_image3", optional_model AttachmentParams.new (remittance_image3 d));
     ("international_student", optional PBool PNone no_validator (international_student d));
     ("international_student_image", optional_model AttachmentParams.new (international_student_image d));
     ("social_insurance_support_type", optional PStr (PStr "supported") no_validator (social_insurance_support_type d));
     ("income", optional PInt PNone no_validator (income d));
     ("monthly_income", optional PInt PNone no_validator (monthly_income d));
     ("soc_ins_qualified_at", optional PStr PNone no_validator (soc_ins_qualified_at d));
     ("soc_ins_qualified_reason", optional PStr PNone no_validator (soc_ins_qualified_reason d));
     ("soc_ins_disqualified_at", optional PStr PNone no_validator (soc_ins_disqualified_at d));
     ("disqualified_reason_type", optional PStr PNone no_validator (disqualified_reason_type d));
     ("disqualified_reason", optional PStr PNone no_validator (disqualified_reason d));
     ("tax_law_support_type", optional PStr (PStr "supported") no_validator (tax_law_support_type d));
     ("tax_deduction_income", optional PInt PNone no_validator (tax_deduction_income d));
     ("tax_deduction_qualified_at", optional PStr PNone no_validator (tax_deduction_qualified_at d));
     ("tax_deduction_qualified_reason", optional PStr PNone no_validator (tax_deduction_qualified_reason d));
     ("tax_deduction_disqualified_at", optional PStr PNone no_validator (tax_deduction_disqualified_at d));
     ("tax_deduction_disqualified_reason_type", optional PStr PNone no_validator (tax_deduction_disqualified_reason_type d));
     ("tax_deduction_disqualified_reason", optional PStr PNone no_validator (tax_deduction_disqualified_reason d));
     ("maternity_handbook_image", optional_model AttachmentParams.new (maternity_handbook_image d));
     ("kinship_image", optional_model AttachmentParams.new (kinship_image d));
     ("code", optional PStr PNone no_validator (code d))].
End DependentCreateRequest.

(** [class DependentUpdateRequest(DependentCreateRequest): pass] *)
Module DependentUpdateRequest.
Definition validate_gender := DependentCreateRequest.validate_gender.
Definition new := DependentCreateRequest.new.
End DependentUpdateRequest.

Module DependentPartialUpdateRequest.
Import Dependent.

Definition new (d : fields) : validation :=
  construct
    [("relation_id", required PStr no_validator (relation_id d));
     ("is_spouse", optional PBool PNone no_validator (is_spouse d));
     ("last_name", required PStr no_validator (last_name d));
     ("first_name", required PStr no_validator (first_name d));
     ("last_name_yomi", optional PStr PNone no_validator (last_name_yomi d));
     ("first_name_yomi", optional PStr PNone no_validator (first_name_yomi d));
     ("birth_at", required PStr no_validator (birth_at d));
     ("moved_at", optional PStr PNone no_validator (moved_at d));
     ("gender", required PStr no_validator (gender d));
     ("job", optional PStr PNone no_validator (job d));
     ("basic_pension_number", optional PStr PNone no_validator (basic_pension_number d));
     ("basic_pension_number_image", optional_model AttachmentParams.new (basic_pension_number_image d));
     ("live_together_type", required PStr LiveTogetherType (live_together_type d));
     ("address", optional_model Address.new (address d));
     ("tel_number", optional PStr PNone no_validator (tel_number d));
     ("handicapped_type", optional PStr PNone no_validator (handicapped_type d));
     ("handicapped_note_type", optional PStr PNone no_validator (handicapped_note_type d));
     ("handicapped_note_delivery_at", optional PStr PNone no_validator (handicapped_note_delivery_at d));
     ("handicapped_image", optional_model AttachmentParams.new (handicapped_image d));
     ("remittance_to_relative", optional PBool PNone no_validator (remittance_to_relative d));
     ("remittance_image1", optional_model AttachmentParams.new (remittance_image1 d));
     ("remittance_image2", optional_model AttachmentParams.new (remittance_image2 d));
     ("remittance_image3", optional_model AttachmentParams.new (remittance_image3 d));
     ("international_student", optional PBool PNone no_validator (international_student d));
     ("international_student_image", optional_model AttachmentParams.new (international_student_image d));
     ("social_insurance_support_type", optional PStr PNone no_validator (social_insurance_support_type d));
     ("income", optional PInt PNone no_validator (income d));
     ("monthly_income", optional PInt PNone no_validator (monthly_income d));
     ("soc_ins_qualified_at", optional PStr PNone no_validator (soc_ins_qualified_at d));
     ("soc_ins_qualified_reason", optional PStr PNone no_validator (soc_ins_qualified_reason d));
     ("soc_ins_disqualified_at", optional PStr PNone no_validator (soc_ins_disqualified_at d));
     ("disqualified_reason_type", optional PStr PNone no_validator (disqualified_reason_type d));
     ("disqualified_reason", optional PStr PNone no_validator (disqualified_reason d));
     ("tax_law_support_type", optional PStr PNone no_validator (tax_law_support_type d));
     ("tax_deduction_income", optional PInt PNone no_validator (tax_deduction_income d));
     ("tax_deduction_qualified_at", optional PStr PNone no_validator (tax_deduction_qualified_at d));
     ("tax_deduction_qualified_reason", optional PStr PNone no_validator (tax_deduction_qualified_reason d));
     ("tax_deduction_disqualified_at", optional PStr PNone no_validator (tax_deduction_disqualified_at d));
     ("tax_deduction_disqualified_reason_type", optional PStr PNone no_validator (tax_deduction_disqualified_reason_type d));
     ("tax_deduction_disqualified_reason", optional PStr PNone no_validator (tax_deduction_disqualified_reason d));
     ("maternity_handbook_image", optional_model AttachmentParams.new (maternity_handbook_image d));
     ("kinship_image", optional_model AttachmentParams.new (kinship_image d));
     ("code", optional PStr PNone no_validator (code d))].

(** [all([last_name, first_name, birth_at, gender, live_together_type,
    relation_id])] *)
Definition has_required_patch_fields (self : model) : bool :=
  forallb (fun k => py_truthy (default PNone (values self !! k)))
    ["last_name"; "first_name"; "birth_at"; "gender"; "live_together_type";
     "relation_id"].
End DependentPartialUpdateRequest.

(** ** Calling a Python function *)

(** A signature: the declared parameters in order, each with its default
    if it has one, and whether a [**kwargs] parameter follows. *)
Record signature := mkSig {
  declared : list (string * option atom);
  var_keyword : bool
}.

(** A call: the positional arguments and the keyword arguments. *)
Record call := mkCall {
  positional : list atom;
  keywords : list (string * atom)
}.

(** The parameters after binding: the declared ones by name and the
    content of [**kwargs]. *)
Record bound := mkBound {
  args : gmap string atom;
  kwargs : gmap string atom
}.

Definition names (sg : signature) : list string := fst <$> declared sg.

(** Positional arguments fill the declared parameters from the left. *)
Fixpoint bind_positional (ps : list (string * option atom)) (vs : list atom)
    (acc : gmap string atom) {struct vs} : outcome (gmap string atom) :=
  match vs, ps with
  | [], _ => Return acc
  | v :: vs', (n, _) :: ps' => bind_positional ps' vs' (<[n := v]> acc)
  | _ :: _, [] => Raise (TypeError "too many positional arguments")
  end.

(** A keyword that names a declared parameter fills it, unless it is
    filled already; any other keyword goes to [**kwargs] when there is one. *)
Fixpoint bind_keywords (sg : signature) (kws : list (string * atom)) (b : bound)
    : outcome bound :=
  match kws with
  | [] => Return b
  | (k, v) :: rest =>
      if bool_decide (k ∈ names sg) then
        match args b !! k with
        | Some _ => Raise (TypeError "got multiple values for argument")
        | None => bind_keywords sg rest (mkBound (<[k := v]> (args b)) (kwargs b))
        end
      else if var_keyword sg then
        match kwargs b !! k with
        | Some _ => Raise (TypeError "got multiple values for keyword argument")
        | None => bind_keywords sg rest (mkBound (args b) (<[k := v]> (kwargs b)))
        end
      else Raise (TypeError "got an unexpected keyword argument")
  end.

(** Parameters still unfilled take their default. *)
Fixpoint fill_defaults (ps : list (string * option atom)) (a : gmap string atom)
    : outcome (gmap string atom) :=
  match ps with
  | [] => Return a
  | (n, d) :: rest =>
      match a !! n, d with
      | Some _, _ => fill_defaults rest a
      | None, Some v => fill_defaults rest (<[n := v]> a)
      | None, None => Raise (TypeError "missing a required argument")
      end
  end.

Definition bind_args (sg : signature) (c : call) : outcome bound :=
  match bind_positional (declared sg) (positional c) ∅ with
  | Return a =>
      match bind_keywords sg (keywords c) (mkBound a ∅) with
      | Return b =>
          match fill_defaults (declared sg) (args b) with
          | Return a' => Return (mkBound a' (kwargs b))
          | Raise e => Raise e
          end
      | Raise e => Raise e
      end
  | Raise e => Raise e
  end.

(** The default a signature declares for a parameter. *)
Definition default_of (sg : signature) (name : string) : option atom :=
  match list_find (fun p => p.1 = name) (declared sg) with
  | Some (_, (_, d)) => d
  | None => None
  end.

(** Whether a call passes the parameter [name], by position or by
    keyword. *)
Definition supplies (sg : signature) (c : call) (name : string) : bool :=
  bool_decide (name ∈ fst <$> take (length (positional c)) (declared sg)) ||
  bool_decide (name ∈ fst <$> keywords c).

(** The value bound to a declared parameter. *)
Definition arg (b : bound) (name : string) : atom := default ANone (args b !! name).

(** A call of a bound method: the receiver fills the first parameter,
    [self], ahead of the caller's positional arguments.  The binding holds
    a token in its place; the method bodies take the client from [self]
    itself, never from the binding. *)
Definition receiver : atom := AStr "self".

Definition method_call (c : call) : call :=
  mkCall (receiver :: positional c) (keywords c).

(** ** The client *)

Module SmartHRClient.

Record t := mk {
  base_url : string;
  api_key : string;
  headers : gmap string string
}.

(** [__init__]: the base URL and the key come from the process
    environment; a key that is missing or empty is fatal. *)
Definition __init__ (environ : gmap string string) : outcome t :=
  let base_url := default "https://app.smarthr.jp/api" (environ !! "SMARTHR_API_BASE_URL") in
  match environ !! "SMARTHR_API_KEY" with
  | Some key =>
      if String.eqb key ""
      then Raise (ValueError "SMARTHR_API_KEY environment variable is not set")
      else Return (mk base_url key
                     {[ "Authorization" := "Bearer " +:+ key;
                        "Content-Type" := "application/json" ]})
  | None => Raise (ValueError "SMARTHR_API_KEY environment variable is not set")
  end.

(** The marker [_request] returns for a response without content. *)
Definition no_content : pyval :=
  PDict {[ "status" := PInt 204; "message" := PStr "No Content" ]}.

(** [model.dict(...)] as a JSON payload. *)
Definition payload (exclude_unset exclude_none : bool) (m : model) : option pyval :=
  Some (dict exclude_unset exclude_none m).

(** [params[key] = value] when [value] is truthy. *)
Definition set_if (key : string) (value : atom) (params : gmap string atom)
    : gmap string atom :=
  if truthy value then <[key := value]> params else params.

Section methods.
Variable self : t.

(** [requests.get(url, params=.., headers=self.headers)] and its
    siblings: the keyword [json] or [params] is absent where the source
    does not pass it. *)
Definition http (m : http_method) (path : string)
    (params : option (gmap string atom)) (json : option pyval) : M Response :=
  send (mkRequest m (base_url self +:+ path) params json (Some (headers self))).

Definition _request (method : http_method) (endpoint : string)
    (params : option (gmap string atom)) (json : option pyval) : M pyval :=
  response <- http method endpoint params json;;
  if status_code response =? 204 then ret no_content
  else raise_for_status response;;; response_json response.

(** The ending most methods share: [response.raise_for_status()] and
    [return response.json()]. *)
Definition checked_json (response : Response) : M pyval :=
  raise_for_status response;;; response_json response.

Definition create_crew (crew_data : model) : M pyval :=
  response <- http POST "/v1/crews" None (payload true true crew_data);;
  checked_json response.

Definition get_crew (crew_id : string) (fields : atom) : M pyval :=
  let params := set_if "fields" fields ∅ in
  response <- http GET ("/v1/crews/" +:+ crew_id) (Some params) None;;
  checked_json response.

Definition update_crew (crew_id : string) (crew_data : model) : M pyval :=
  response <- http PATCH ("/v1/crews/" +:+ crew_id) None (payload true true crew_data);;
  checked_json response.

Definition list_crews (page per_page emp_code emp_type employment_type_id
    emp_status gender entered_at_from entered_at_to resigned_at_from
    resigned_at_to department_id : atom) (kwargs : gmap string atom) : M pyval :=
  let params : gmap string atom := {[ "page" := page; "per_page" := per_page ]} in
  let params := set_if "emp_code" emp_code params in
  let params := set_if "emp_type" emp_type params in
  let params := set_if "employment_type_id" employment_type_id params in
  let params := set_if "emp_status" emp_status params in
  let params := set_if "gender" gender params in
  let params := set_if "entered_at_from" entered_at_from params in
  let params := set_if "entered_at_to" entered_at_to params in
  let params := set_if "resigned_at_from" resigned_at_from params in
  let params := set_if "resigned_at_to" resigned_at_to params in
  let params := set_if "department_id" department_id params in
  (* params.update(kwargs) *)
  let params := kwargs ∪ params in
  response <- http GET "/v1/crews" (Some params) None;;
  checked_json response.

Definition search_crews (query page per_page prefer_business_name : atom) : M pyval :=
  let params : gmap string atom :=
    {[ "q" := query; "page" := page; "per_page" := per_page ]} in
  let params :=
    match prefer_business_name with
    | ANone => params
    | _ => <["prefer_business_name" := prefer_business_name]> params
    end in
  response <- http GET "/v1/crews" (Some params) None;;
  checked_json response.

Definition invite_crew (crew_id : string) (inviter_user_id crew_input_form_id : atom)
    : M pyval :=
  let payload := set_if "inviter_user_id" inviter_user_id ∅ in
  let payload := set_if "crew_input_form_id" crew_input_form_id payload in
  response <- http PUT ("/v1/crews/" +:+ crew_id +:+ "/invite") None
                (Some (PDict (of_atom <$> payload)));;
  checked_json response.

Definition delete_crew (crew_id : string) : M pyval :=
  response <- http DELETE ("/v1/crews/" +:+ crew_id) None None;;
  raise_for_status response;;;
  ret PNone.

Definition partial_update_department (department_id : string) (department_data : model)
    : M pyval :=
  response <- http PATCH ("/v1/departments/" +:+ department_id) None
                (payload true true department_data);;
  checked_json response.

Definition update_department (department_id : string) (department_data : model)
    : M pyval :=
  response <- http PUT ("/v1/departments/" +:+ department_id) None
                (payload false false department_data);;
  checked_json response.

Definition get_department (department_id : string) : M pyval :=
  response <- http GET ("/v1/departments/" +:+ department_id) None None;;
  checked_json response.

Definition list_departments (page per_page code sort : atom) : M pyval :=
  let params : gmap string atom := {[ "page" := page; "per_page" := per_page ]} in
  let params := set_if "code" code params in
  let params := set_if "sort" sort params in
  response <- http GET "/v1/departments" (Some params) None;;
  checked_json response.

Definition create_department (department_data : model) : M pyval :=
  response <- http POST "/v1/departments" None (payload true true department_data);;
  checked_json response.

(** The first of the two definitions of [list_employment_types]; the
    class keeps the second one. *)
Definition list_employment_types_shadowed (page per_page : atom) : M pyval :=
  let params : gmap string atom := {[ "page" := page; "per_page" := per_page ]} in
  response <- http GET "/v1/employment_types" (Some params) None;;
  checked_json response.

(** The definition in force: it builds [params] and ends there, so it
    returns [None]; it reads nothing of [self]. *)
Definition list_employment_types (page per_page : atom) : M pyval :=
  let params : gmap string atom := {[ "page" := page; "per_page" := per_page ]} in
  ret PNone.

Definition list_job_titles (page per_page sort : atom) : M pyval :=
  let params : gmap string atom := {[ "page" := page; "per_page" := per_page ]} in
  let params := set_if "sort" sort params in
  response <- http GET "/v1/job_titles" (Some params) None;;
  checked_json response.

Definition create_job_title (job_title_data : model) : M pyval :=
  response <- http POST "/v1/job_titles" None (payload true true job_title_data);;
  checked_json response.

Definition get_job_title (job_title_id : string) : M pyval :=
  response <- http GET ("/v1/job_titles/" +:+ job_title_id) None None;;
  checked_json response.

Definition update_job_title (job_title_id : string) (job_title_data : model) : M pyval :=
  response <- http PUT ("/v1/job_titles/" +:+ job_title_id) None
                (payload false false job_title_data);;
  checked_json response.

Definition partial_update_job_title (job_title_id : string) (job_title_data : model)
    : M pyval :=
  response <- http PATCH ("/v1/job_titles/" +:+ job_title_id) None
                (payload true true job_title_data);;
  checked_json response.

Definition delete_job_title (job_title_id : string) : M pyval :=
  response <- http DELETE ("/v1/job_titles/" +:+ job_title_id) None None;;
  raise_for_status response;;;
  response <- http GET "/v1/employment_types" None None;;
  checked_json response.

Definition discontinue_department (department_id discontinued_date : string)
    : M pyval :=
  today <- get_today;;
  target_date <-
    match strptime discontinued_date with
    | Some d => ret d
    | None => raise (ValueError "time data does not match format '%Y-%m-%d'")
    end;;
  if negb (date_ltb target_date today)
  then raise (ValueError
         "廃止日は本日または未来日にはできません。昨日以前の日付を指定してください。")
  else
    now <- get_today;;
    payload <-
      match DepartmentDiscontinueRequest.new now (Supplied (Some discontinued_date)) with
      | Valid m => ret m
      | Invalid errs => raise (ValidationError errs)
      end;;
    response <- http POST ("/v1/departments/" +:+ department_id +:+ "/discontinue")
                  None (Some (dict false false payload));;
    raise_for_status response;;;
    ret (PDict {[ "status" := PInt (status_code response);
                  "message" := PStr "Department discontinued successfully" ]}).

Definition create_employment_type (employment_type_data : model) : M pyval :=
  response <- http POST "/v1/employment_types" None
                (payload true true employment_type_data);;
  checked_json response.

Definition get_employment_type (employment_type_id : string) : M pyval :=
  response <- http GET ("/v1/employment_types/" +:+ employment_type_id) None None;;
  checked_json response.

Definition update_employment_type (employment_type_id : string)
    (employment_type_data : model) : M pyval :=
  response <- http PUT ("/v1/employment_types/" +:+ employment_type_id) None
                (payload false false employment_type_data);;
  checked_json response.

Definition partial_update_employment_type (employment_type_id : string)
    (employment_type_data : model) : M pyval :=
  response <- http PATCH ("/v1/employment_types/" +:+ employment_type_id) None
                (payload true true employment_type_data);;
  checked_json response.

(** Defined twice in the class, with the same body. *)
Definition delete_employment_type (employment_type_id : string) : M pyval :=
  response <- http DELETE ("/v1/employment_types/" +:+ employment_type_id) None None;;
  raise_for_status response;;;
  ret PNone.

Definition list_grades (page per_page sort : atom) : M pyval :=
  let params : gmap string atom := {[ "page" := page; "per_page" := per_page ]} in
  let params := set_if "sort" sort params in
  response <- http GET "/v1/grades" (Some params) None;;
  checked_json response.

Definition create_grade (grade_data : model) : M pyval :=
  response <- http POST "/v1/grades" None (payload true true grade_data);;
  checked_json response.

Definition get_grade (grade_id : string) : M pyval :=
  response <- http GET ("/v1/grades/" +:+ grade_id) None None;;
  checked_json response.

Definition update_grade (grade_id : string) (grade_data : model) : M pyval :=
  response <- http PUT ("/v1/grades/" +:+ grade_id) None (payload true true grade_data);;
  checked_json response.

Definition partial_update_grade (grade_id : string) (grade_data : model) : M pyval :=
  response <- http PATCH ("/v1/grades/" +:+ grade_id) None (payload true true grade_data);;
  checked_json response.

(** The response is received and dropped: no [raise_for_status]. *)
Definition delete_grade (grade_id : string) : M pyval :=
  response <- http DELETE ("/v1/grades/" +:+ grade_id) None None;;
  ret PNone.

Definition list_job_categories (page per_page sort : atom) : M pyval :=
  let params : gmap string atom := {[ "page" := page; "per_page" := per_page ]} in
  let params := set_if "sort" sort params in
  _request GET "/v1/job_categories" (Some params) None.

Definition create_job_category (job_category_data : model) : M pyval :=
  _request POST "/v1/job_categories" None (payload true true job_category_data).

Definition get_job_category (job_category_id : string) : M pyval :=
  _request GET ("/v1/job_categories/" +:+ job_category_id) None None.

(** [response.get("dependents") == []] on a response that is a dict. *)
Definition empty_dependents (response : pyval) : bool :=
  match response with
  | PDict d =>
      match d !! "dependents" with
      | Some (PList []) => true
      | _ => false
      end
  | _ => false
  end.

(** The [except Exception] clause prints and re-raises, so an exception
    leaves the method as it was raised. *)
Definition list_dependents (crew_id page per_page : atom) (kwargs : gmap string atom)
    : M pyval :=
  (* {"page": page, "per_page": per_page, **kwargs} *)
  let params : gmap string atom :=
    kwargs ∪ {[ "page" := page; "per_page" := per_page ]} in
  response <- _request GET ("/v1/crews/" +:+ py_str crew_id +:+ "/dependents")
                (Some params) None;;
  if empty_dependents response
  then ret (PDict {[ "message" := PStr "この従業員には家族情報が登録されていません。";
                     "dependents" := PList [] ]})
  else ret response.

Definition create_dependent (crew_id : string) (dependent_data : model) : M pyval :=
  _request POST ("/v1/crews/" +:+ crew_id +:+ "/dependents") None
    (payload false true dependent_data).

Definition get_dependent (crew_id dependent_id : string) : M pyval :=
  _request GET ("/v1/crews/" +:+ crew_id +:+ "/dependents/" +:+ dependent_id) None None.

Definition update_dependent (crew_id dependent_id : string) (dependent_data : model)
    : M pyval :=
  _request PUT ("/v1/crews/" +:+ crew_id +:+ "/dependents/" +:+ dependent_id) None
    (payload true true dependent_data).

(** The [except requests.HTTPError] clause prints and re-raises. *)
Definition partial_update_dependent (crew_id dependent_id : string)
    (dependent_data : model) : M pyval :=
  if negb (DependentPartialUpdateRequest.has_required_patch_fields dependent_data)
  then raise (ValueError
         "家族情報の部分更新には、姓・名・性別・生年月日・続柄ID・同居区分が必須です。")
  else
    _request PATCH ("/v1/crews/" +:+ crew_id +:+ "/dependents/" +:+ dependent_id) None
      (payload true true dependent_data).

(** The value of [_request] is not returned. *)
Definition delete_dependent (crew_id dependent_id : string) : M pyval :=
  _request DELETE ("/v1/crews/" +:+ crew_id +:+ "/dependents/" +:+ dependent_id)
    None None;;;
  ret PNone.

Definition list_relations (page per_page : atom) : M pyval :=
  let params : gmap string atom := {[ "page" := page; "per_page" := per_page ]} in
  response <- http GET "/v1/dependent_relations" (Some params) None;;
  checked_json response.

(** *** The list methods as callers reach them

    Each signature is the method's [def] line; a call binds the receiver
    and the caller's arguments by Python's rules and runs the body. *)

Definition sig_list_crews : signature :=
  mkSig [("self", None); ("page", Some (AInt 1)); ("per_page", Some (AInt 10));
         ("emp_code", Some ANone); ("emp_type", Some ANone);
         ("employment_type_id", Some ANone); ("emp_status", Some ANone);
         ("gender", Some ANone); ("entered_at_from", Some ANone);
         ("entered_at_to", Some ANone); ("resigned_at_from", Some ANone);
         ("resigned_at_to", Some ANone); ("department_id", Some ANone)] true.

Definition sig_search_crews : signature :=
  mkSig [("self", None); ("query", None); ("page", Some (AInt 1)); ("per_page", Some (AInt 10));
         ("prefer_business_name", Some ANone)] false.

Definition sig_list_departments : signature :=
  mkSig [("self", None); ("page", Some (AInt 1)); ("per_page", Some (AInt 10));
         ("code", Some ANone); ("sort", Some ANone)] false.

Definition sig_list_employment_types : signature :=
  mkSig [("self", None); ("page", Some (AInt 1)); ("per_page", Some (AInt 10))] false.

Definition sig_list_job_titles : signature :=
  mkSig [("self", None); ("page", Some (AInt 1)); ("per_page", Some (AInt 10));
         ("sort", Some ANone)] false.

Definition sig_list_grades : signature :=
  mkSig [("self", None); ("page", Some (AInt 1)); ("per_page", Some (AInt 10));
         ("sort", Some ANone)] false.

Definition sig_list_job_categories : signature :=
  mkSig [("self", None); ("page", Some (AInt 1)); ("per_page", Some (AInt 10));
         ("sort", Some ANone)] false.

Definition sig_list_dependents : signature :=
  mkSig [("self", None); ("crew_id", None); ("page", Some (AInt 1)); ("per_page", Some (AInt 10))] true.

Definition sig_list_relations : signature :=
  mkSig [("self", None); ("page", Some (AInt 1)); ("per_page", Some (AInt 100))] false.

Definition call_list_crews (c : call) : M pyval :=
  b <- lift (bind_args sig_list_crews (method_call c));;
  list_crews (arg b "page") (arg b "per_page") (arg b "emp_code") (arg b "emp_type")
    (arg b "employment_type_id") (arg b "emp_status") (arg b "gender")
    (arg b "entered_at_from") (arg b "entered_at_to") (arg b "resigned_at_from")
    (arg b "resigned_at_to") (arg b "department_id") (kwargs b).

Definition call_search_crews (c : call) : M pyval :=
  b <- lift (bind_args sig_search_crews (method_call c));;
  search_crews (arg b "query") (arg b "page") (arg b "per_page")
    (arg b "prefer_business_name").

Definition call_list_departments (c : call) : M pyval :=
  b <- lift (bind_args sig_list_departments (method_call c));;
  list_departments (arg b "page") (arg b "per_page") (arg b "code") (arg b "sort").

Definition call_list_employment_types (c : call) : M pyval :=
  b <- lift (bind_args sig_list_employment_types (method_call c));;
  list_employment_types (arg b "page") (arg b "per_page").

Definition call_list_job_titles (c : call) : M pyval :=
  b <- lift (bind_args sig_list_job_titles (method_call c));;
  list_job_titles (arg b "page") (arg b "per_page") (arg b "sort").

Definition call_list_grades (c : call) : M pyval :=
  b <- lift (bind_args sig_list_grades (method_call c));;
  list_grades (arg b "page") (arg b "per_page") (arg b "sort").

Definition call_list_job_categories (c : call) : M pyval :=
  b <- lift (bind_args sig_list_job_categories (method_call c));;
  list_job_categories (arg b "page") (arg b "per_page") (arg b "sort").

Definition call_list_dependents (c : call) : M pyval :=
  b <- lift (bind_args sig_list_dependents (method_call c));;
  list_dependents (arg b "crew_id") (arg b "page") (arg b "per_page") (kwargs b).

Definition call_list_relations (c : call) : M pyval :=
  b <- lift (bind_args sig_list_relations (method_call c));;
  list_relations (arg b "page") (arg b "per_page").

End methods.

(** The list methods of the class. *)
Inductive list_method :=
| ListCrews
| SearchCrews
| ListDepartments
| ListEmploymentTypes
| ListJobTitles
| ListGrades
| ListJobCategories
| ListDependents
| ListRelations.

Definition signature_of (m : list_method) : signature :=
  match m with
  | ListCrews => sig_list_crews
  | SearchCrews => sig_search_crews
  | ListDepartments => sig_list_departments
  | ListEmploymentTypes => sig_list_employment_types
  | ListJobTitles => sig_list_job_titles
  | ListGrades => sig_list_grades
  | ListJobCategories => sig_list_job_categories
  | ListDependents => sig_list_dependents
  | ListRelations => sig_list_relations
  end.
(** One invocation of a method of the class, with its arguments (for the
    list methods, as bound). *)
Inductive invocation :=
| CallCreateCrew (crew_data : model)
| CallGetCrew (crew_id : string) (fields : atom)
| CallUpdateCrew (crew_id : string) (crew_data : model)
| CallListCrews (page per_page emp_code emp_type employment_type_id emp_status gender entered_at_from entered_at_to resigned_at_from resigned_at_to department_id : atom) (kwargs : gmap string atom)
| CallSearchCrews (query page per_page prefer_business_name : atom)
| CallInviteCrew (crew_id : string) (inviter_user_id crew_input_form_id : atom)
| CallDeleteCrew (crew_id : string)
| CallPartialUpdateDepartment (department_id : string) (department_data : model)
| CallUpdateDepartment (department_id : string) (department_data : model)
| CallGetDepartment (department_id : string)
| CallListDepartments (page per_page code sort : atom)
| CallCreateDepartment (department_data : model)
| CallListEmploymentTypes (page per_page : atom)
| CallListJobTitles (page per_page sort : atom)
| CallCreateJobTitle (job_title_data : model)
| CallGetJobTitle (job_title_id : string)
| CallUpdateJobTitle (job_title_id : string) (job_title_data : model)
| CallPartialUpdateJobTitle (job_title_id : string) (job_title_data : model)
| CallDeleteJobTitle (job_title_id : string)
| CallDiscontinueDepartment (department_id discontinued_date : string)
| CallCreateEmploymentType (employment_type_data : model)
| CallGetEmploymentType (employment_type_id : string)
| CallUpdateEmploymentType (employment_type_id : string) (employment_type_data : model)
| CallPartialUpdateEmploymentType (employment_type_id : string) (employment_type_data : model)
| CallDeleteEmploymentType (employment_type_id : string)
| CallListGrades (page per_page sort : atom)
| CallCreateGrade (grade_data : model)
| CallGetGrade (grade_id : string)
| CallUpdateGrade (grade_id : string) (grade_data : model)
| CallPartialUpdateGrade (grade_id : string) (grade_data : model)
| CallDeleteGrade (grade_id : string)
| CallListJobCategories (page per_page sort : atom)
| CallCreateJobCategory (job_category_data : model)
| CallGetJobCategory (job_category_id : string)
| CallListDependents (crew_id page per_page : atom) (kwargs : gmap string atom)
| CallCreateDependent (crew_id : string) (dependent_data : model)
| CallGetDependent (crew_id dependent_id : string)
| CallUpdateDependent (crew_id dependent_id : string) (dependent_data : model)
| CallPartialUpdateDependent (crew_id dependent_id : string) (dependent_data : model)
| CallDeleteDependent (crew_id dependent_id : string)
| CallListRelations (page per_page : atom).

Definition invoke (self : t) (i : invocation) : M pyval :=
  match i with
  | CallCreateCrew crew_data =>
      create_crew self crew_data
  | CallGetCrew crew_id fields =>
      get_crew self crew_id fields
  | CallUpdateCrew crew_id crew_data =>
      update_crew self crew_id crew_data
  | CallListCrews page per_page emp_code emp_type employment_type_id emp_status gender entered_at_from entered_at_to resigned_at_from resigned_at_to department_id kwargs =>
      list_crews self page per_page emp_code emp_type employment_type_id emp_status gender entered_at_from entered_at_to resigned_at_from resigned_at_to department_id kwargs
  | CallSearchCrews query page per_page prefer_business_name =>
      search_crews self query page per_page prefer_business_name
  | CallInviteCrew crew_id inviter_user_id crew_input_form_id =>
      invite_crew self crew_id inviter_user_id crew_input_form_id
  | CallDeleteCrew crew_id =>
      delete_crew self crew_id
  | CallPartialUpdateDepartment department_id department_data =>
      partial_update_department self department_id department_data
  | CallUpdateDepartment department_id department_data =>
      update_department self department_id department_data
  | CallGetDepartment department_id =>
      get_department self department_id
  | CallListDepartments page per_page code sort =>
      list_departments self page per_page code sort
  | CallCreateDepartment department_data =>
      create_department self department_data
  | CallListEmploymentTypes page per_page =>
      list_employment_types page per_page
  | CallListJobTitles page per_page sort =>
      list_job_titles self page per_page sort
  | CallCreateJobTitle job_title_data =>
      create_job_title self job_title_data
  | CallGetJobTitle job_title_id =>
      get_job_title self job_title_id
  | CallUpdateJobTitle job_title_id job_title_data =>
      update_job_title self job_title_id job_title_data
  | CallPartialUpdateJobTitle job_title_id job_title_data =>
      partial_update_job_title self job_title_id job_title_data
  | CallDeleteJobTitle job_title_id =>
      delete_job_title self job_title_id
  | CallDiscontinueDepartment department_id discontinued_date =>
      discontinue_department self department_id discontinued_date
  | CallCreateEmploymentType employment_type_data =>
      create_employment_type self employment_type_data
  | CallGetEmploymentType employment_type_id =>
      get_employment_type self employment_type_id
  | CallUpdateEmploymentType employment_type_id employment_type_data =>
      update_employment_type self employment_type_id employment_type_data
  | CallPartialUpdateEmploymentType employment_type_id employment_type_data =>
      partial_update_employment_type self employment_type_id employment_type_data
  | CallDeleteEmploymentType employment_type_id =>
      delete_employment_type self employment_type_id
  | CallListGrades page per_page sort =>
      list_grades self page per_page sort
  | CallCreateGrade grade_data =>
      create_grade self grade_data
  | CallGetGrade grade_id =>
      get_grade self grade_id
  | CallUpdateGrade grade_id grade_data =>
      update_grade self grade_id grade_data
  | CallPartialUpdateGrade grade_id grade_data =>
      partial_update_grade self grade_id grade_data
  | CallDeleteGrade grade_id =>
      delete_grade self grade_id
  | CallListJobCategories page per_page sort =>
      list_job_categories self page per_page sort
  | CallCreateJobCategory job_category_data =>
      create_job_category self job_category_data
  | CallGetJobCategory job_category_id =>
      get_job_category self job_category_id
  | CallListDependents crew_id page per_page kwargs =>
      list_dependents self crew_id page per_page kwargs
  | CallCreateDependent crew_id dependent_data =>
      create_dependent self crew_id dependent_data
  | CallGetDependent crew_id dependent_id =>
      get_dependent self crew_id dependent_id
  | CallUpdateDependent crew_id dependent_id dependent_data =>
      update_dependent self crew_id dependent_id dependent_data
  | CallPartialUpdateDependent crew_id dependent_id dependent_data =>
      partial_update_dependent self crew_id dependent_id dependent_data
  | CallDeleteDependent crew_id dependent_id =>
      delete_dependent self crew_id dependent_id
  | CallListRelations page per_page =>
      list_relations self page per_page
  end.
End SmartHRClient.

(** ** Sample worlds *)

(** The remote side answers the first request of a call with [resp],
    whatever the request is. *)
Definition first_response (w : world) (resp : Response) : Prop :=
  forall req, remote w [] req = Some resp.

(** A remote side that answers every request with the same response. *)
Definition answering (r : Response) (d : date) : world :=
  mkWorld (fun _ _ => Some r) d.

Definition sample_client : SmartHRClient.t :=
  SmartHRClient.mk "https://app.smarthr.jp/api" "token"
    {[ "Authorization" := "Bearer token"; "Content-Type" := "application/json" ]}.

(** ** How each method ends

    Three endings occur in the class: the method goes through [_request]
    and returns its value; the method calls [requests] itself and returns
    [response.json()] after [raise_for_status]; anything else. *)
Inductive ending :=
| ThroughRequest
| DirectJson
| OtherEnding.

Definition ending_of (i : SmartHRClient.invocation) : ending :=
  match i with
  | SmartHRClient.CallListJobCategories _ _ _
  | SmartHRClient.CallCreateJobCategory _
  | SmartHRClient.CallGetJobCategory _
  | SmartHRClient.CallCreateDependent _ _
  | SmartHRClient.CallGetDependent _ _
  | SmartHRClient.CallUpdateDependent _ _ _ => ThroughRequest
  | SmartHRClient.CallCreateCrew _
  | SmartHRClient.CallGetCrew _ _
  | SmartHRClient.CallUpdateCrew _ _
  | SmartHRClient.CallListCrews _ _ _ _ _ _ _ _ _ _ _ _ _
  | SmartHRClient.CallSearchCrews _ _ _ _
  | SmartHRClient.CallInviteCrew _ _ _
  | SmartHRClient.CallPartialUpdateDepartment _ _
  | SmartHRClient.CallUpdateDepartment _ _
  | SmartHRClient.CallGetDepartment _
  | SmartHRClient.CallListDepartments _ _ _ _
  | SmartHRClient.CallCreateDepartment _
  | SmartHRClient.CallListJobTitles _ _ _
  | SmartHRClient.CallCreateJobTitle _
  | SmartHRClient.CallGetJobTitle _
  | SmartHRClient.CallUpdateJobTitle _ _
  | SmartHRClient.CallPartialUpdateJobTitle _ _
  | SmartHRClient.CallCreateEmploymentType _
  | SmartHRClient.CallGetEmploymentType _
  | SmartHRClient.CallUpdateEmploymentType _ _
  | SmartHRClient.CallPartialUpdateEmploymentType _ _
  | SmartHRClient.CallListGrades _ _ _
  | SmartHRClient.CallCreateGrade _
  | SmartHRClient.CallGetGrade _
  | SmartHRClient.CallUpdateGrade _ _
  | SmartHRClient.CallPartialUpdateGrade _ _
  | SmartHRClient.CallListRelations _ _ => DirectJson
  | _ => OtherEnding
  end.

(** The remote side is out of reach: the transport raises on the first
    request of a call. *)
Definition unreachable (w : world) : Prop :=
  forall req, remote w [] req = None.

(** ** The tool layer ([server.py])

    The tools that build a request model from their arguments and hand it
    to the client.  [smarthr_client] is the module-level client; an
    argument declared [Optional[...] = None] is an [option]. *)
Module Server.
Section tools.
Variable smarthr_client : SmartHRClient.t.

(** [Model(field=value, ...)]: the instance, or [ValidationError]. *)
Definition instantiate (v : validation) : M model :=
  match v with
  | Valid m => ret m
  | Invalid errs => raise (ValidationError errs)
  end.

Definition smarthr_create_department (name : string) (position : option Z)
    (code parent_id : option string) : M pyval :=
  department_data <-
    instantiate (DepartmentCreateRequest.new (Supplied (Some name)) (Supplied position)
                   (Supplied code) (Supplied parent_id));;
  SmartHRClient.create_department smarthr_client department_data.

Definition smarthr_update_department (department_id name : string)
    (position : option Z) (code parent_id : option string) : M pyval :=
  department_data <-
    instantiate (DepartmentUpdateRequest.new (Supplied (Some name)) (Supplied position)
                   (Supplied code) (Supplied parent_id));;
  SmartHRClient.update_department smarthr_client department_id department_data.

Definition smarthr_partial_update_department (department_id : string)
    (name : option string) (position : option Z) (code parent_id : option string)
    : M pyval :=
  department_data <-
    instantiate (DepartmentPartialUpdateRequest.new (Supplied name) (Supplied position)
                   (Supplied code) (Supplied parent_id));;
  SmartHRClient.partial_update_department smarthr_client department_id department_data.

Definition smarthr_discontinue_department (department_id discontinued_date : string)
    : M pyval :=
  SmartHRClient.discontinue_department smarthr_client department_id discontinued_date.

Definition smarthr_create_employment_type (name : string) (code : option string)
    : M pyval :=
  employment_type_data <-
    instantiate (EmploymentTypeCreateRequest.new (Supplied (Some name)) (Supplied code));;
  SmartHRClient.create_employment_type smarthr_client employment_type_data.

Definition smarthr_update_employment_type (employment_type_id name : string) : M pyval :=
  employment_type_data <-
    instantiate (EmploymentTypeUpdateRequest.new (Supplied (Some name)));;
  SmartHRClient.update_employment_type smarthr_client employment_type_id
    employment_type_data.

Definition smarthr_partial_update_employment_type (employment_type_id : string)
    (name code : option string) : M pyval :=
  employment_type_data <-
    instantiate (EmploymentTypePartialUpdateRequest.new (Supplied name) (Supplied code));;
  SmartHRClient.partial_update_employment_type smarthr_client employment_type_id
    employment_type_data.

Definition smarthr_create_job_title (name : string) (rank : Z) (code : option string)
    : M pyval :=
  job_title_data <-
    instantiate (JobTitleCreateRequest.new (Supplied (Some name)) (Supplied (Some rank))
                   (Supplied code));;
  SmartHRClient.create_job_title smarthr_client job_title_data.

Definition smarthr_update_job_title (job_title_id name : string) (rank : Z) : M pyval :=
  job_title_data <-
    instantiate (JobTitleUpdateRequest.new (Supplied (Some name)) (Supplied (Some rank)));;
  SmartHRClient.update_job_title smarthr_client job_title_id job_title_data.

Definition smarthr_partial_update_job_title (job_title_id : string)
    (name : option string) (rank : option Z) (code : option string) : M pyval :=
  job_title_data <-
    instantiate (JobTitlePartialUpdateRequest.new (Supplied name) (Supplied rank)
                   (Supplied code));;
  SmartHRClient.partial_update_job_title smarthr_client job_title_id job_title_data.

Definition smarthr_create_grade (name : string) (rank : Z) : M pyval :=
  grade_data <-
    instantiate (GradeCreateRequest.new (Supplied (Some name)) (Supplied (Some rank)));;
  SmartHRClient.create_grade smarthr_client grade_data.

Definition smarthr_update_grade (grade_id name : string) (rank : Z) : M pyval :=
  grade_data <-
    instantiate (GradeUpdateRequest.new (Supplied (Some name)) (Supplied (Some rank)));;
  SmartHRClient.update_grade smarthr_client grade_id grade_data.

Definition smarthr_partial_update_grade (grade_id : string) (name : option string)
    (rank : option Z) : M pyval :=
  grade_data <-
    instantiate (GradePartialUpdateRequest.new (Supplied name) (Supplied rank));;
  SmartHRClient.partial_update_grade smarthr_client grade_id grade_data.

Definition smarthr_create_job_category (name : string) : M pyval :=
  job_category_data <-
    instantiate (JobCategoryCreateRequest.new (Supplied (Some name)));;
  SmartHRClient.create_job_category smarthr_client job_category_data.


End tools.

(** [smarthr_list_relations] builds a client of its own from the process
    environment before it calls [list_relations] with both keywords. *)
Definition smarthr_list_relations (environ : gmap string string) (page per_page : atom)
    : M pyval :=
  client <- lift (SmartHRClient.__init__ environ);;
  SmartHRClient.call_list_relations client
    (mkCall [] [("page", page); ("per_page", per_page)]).

End Server.

(** ** Reading a model's input *)

(** An attachment, when supplied, carries both of its fields. *)
Definition attachment_ok (s : supply AttachmentParams.fields) : bool :=
  match s with
  | Supplied (Some f) =>
      given (AttachmentParams.file_name f) && given (AttachmentParams.content f)
  | _ => true
  end.

(** A string field supplied with one of the listed values. *)
Definition given_among (allowed : list string) (s : supply string) : bool :=
  match s with
  | Supplied (Some v) => existsb (String.eqb v) allowed
  | _ => false
  end.

(** A string field supplied as the empty string. *)
Definition given_empty (s : supply string) : bool :=
  match s with
  | Supplied (Some v) => String.eqb v ""
  | _ => false
  end.

(** The attachments of a dependent, in declaration order. *)
Definition attachments_ok (d : Dependent.fields) : bool :=
  attachment_ok (Dependent.basic_pension_number_image d) &&
  attachment_ok (Dependent.handicapped_image d) &&
  attachment_ok (Dependent.remittance_image1 d) &&
  attachment_ok (Dependent.remittance_image2 d) &&
  attachment_ok (Dependent.remittance_image3 d) &&
  attachment_ok (Dependent.international_student_image d) &&
  attachment_ok (Dependent.maternity_handbook_image d) &&
  attachment_ok (Dependent.kinship_image d).

(** A dict entry that is present when the argument is not [None]. *)
Definition present {T} (key : string) (inj : T -> pyval) (o : option T)
    : gmap string pyval :=
  match o with
  | Some v => {[ key := inj v ]}
  | None => ∅
  end.

(** A list method as a caller reaches it. *)
Definition call_of (self : SmartHRClient.t) (m : SmartHRClient.list_method) (c : call)
    : M pyval :=
  match m with
  | SmartHRClient.ListCrews => SmartHRClient.call_list_crews self c
  | SmartHRClient.SearchCrews => SmartHRClient.call_search_crews self c
  | SmartHRClient.ListDepartments => SmartHRClient.call_list_departments self c
  | SmartHRClient.ListEmploymentTypes => SmartHRClient.call_list_employment_types c
  | SmartHRClient.ListJobTitles => SmartHRClient.call_list_job_titles self c
  | SmartHRClient.ListGrades => SmartHRClient.call_list_grades self c
  | SmartHRClient.ListJobCategories => SmartHRClient.call_list_job_categories self c
  | SmartHRClient.ListDependents => SmartHRClient.call_list_dependents self c
  | SmartHRClient.ListRelations => SmartHRClient.call_list_relations self c
  end.

(** The entries of the dict a payload is. *)
Definition entries (p : option pyval) : gmap string pyval :=
  match p with
  | Some (PDict d) => d
  | _ => ∅
  end.

(** ** The query of a list method, entry by entry *)

(** The first value a list of pairs holds for a key. *)
Fixpoint assoc (k : string) (l : list (string * atom)) : option atom :=
  match l with
  | [] => None
  | (k', v) :: l' => if String.eqb k' k then Some v else assoc k l'
  end.

(** What a query holds under the key [k]: an extra keyword of that name
    if there is one; else the paging values under page and per_page; else
    the filter of that name if its value is truthy; else nothing. *)
Definition expected_query (page per_page : atom) (filters : list (string * atom))
    (kwargs : gmap string atom) (k : string) : option atom :=
  match kwargs !! k with
  | Some v => Some v
  | None =>
      if String.eqb "page" k then Some page
      else if String.eqb "per_page" k then Some per_page
      else match assoc k filters with
           | Some value => if truthy value then Some value else None
           | None => None
           end
  end.

(** * Properties of the request models *)

Section construction.

Lemma collect_no_error fs :
  (collect fs).2 = [] <-> forallb (fun f => passes f.2) fs = true.
Proof.
  induction fs as [|[name r] fs IH]; simpl; [done|].
  destruct (collect fs) as [m errs]; simpl in *.
  destruct r as [v is_set|[|e es]]; simpl.
  - exact IH.
  - exact IH.
  - split; discriminate.
Qed.

(** Construction succeeds exactly when every field passes. *)
Lemma is_valid_construct fs :
  is_valid (construct fs) = forallb (fun f => passes f.2) fs.
Proof.
  pose proof (collect_no_error fs) as H.
  unfold construct. destruct (collect fs) as [m errs]; simpl in *.
  destruct errs; simpl.
  - symmetry. by apply H.
  - destruct (forallb _ fs); [|done].
    destruct H as [_ H]. by specialize (H eq_refl).
Qed.

Lemma passes_optional_no_validator {T} (inj : T -> pyval) d (s : supply T) :
  passes (optional inj d no_validator s) = true.
Proof. by destruct s. Qed.

Lemma passes_required_supplied {T} (inj : T -> pyval) validator (v : T) :
  passes (required inj validator (Supplied (Some v))) =
  match validator v with Accept _ => true | Reject _ => false end.
Proof. simpl. by destruct (validator v). Qed.

End construction.

(** The rank test every rank validator makes. *)
Lemma rank_test r : (r <? 1) || (r >? 99999) = false <-> 1 <= r <= 99999.
Proof. rewrite orb_false_iff, Z.ltb_ge, Z.gtb_ltb, Z.ltb_ge. lia. Qed.

Ltac fields_pass :=
  rewrite !is_valid_construct; cbn [forallb snd];
  rewrite ?passes_optional_no_validator, ?passes_required_supplied;
  cbn [no_validator andb].

Lemma rank_rejected r :
  (r <? 1) || (r >? 99999) = true <-> r < 1 \/ 99999 < r.
Proof. rewrite orb_true_iff, Z.ltb_lt, Z.gtb_ltb, Z.ltb_lt. lia. Qed.

(** C8: a rank submitted to the JobTitle or Grade create, update or
    partial-update model (the other required fields being supplied) fails
    validation if and only if it lies outside [1, 99999]; so every rank from
    1 to 99999 is accepted. *)
Theorem rank_validation (r : Z) (n : string) (name code : supply string) :
  (is_valid (JobTitleCreateRequest.new (Supplied (Some n)) (Supplied (Some r)) code) = false
     <-> r < 1 \/ 99999 < r) /\
  (is_valid (JobTitleUpdateRequest.new (Supplied (Some n)) (Supplied (Some r))) = false
     <-> r < 1 \/ 99999 < r) /\
  (is_valid (JobTitlePartialUpdateRequest.new name (Supplied (Some r)) code) = false
     <-> r < 1 \/ 99999 < r) /\
  (is_valid (GradeCreateRequest.new (Supplied (Some n)) (Supplied (Some r))) = false
     <-> r < 1 \/ 99999 < r) /\
  (is_valid (GradeUpdateRequest.new (Supplied (Some n)) (Supplied (Some r))) = false
     <-> r < 1 \/ 99999 < r) /\
  (is_valid (GradePartialUpdateRequest.new name (Supplied (Some r))) = false
     <-> r < 1 \/ 99999 < r).
Proof.
  pose proof (rank_rejected r) as Hr.
  unfold JobTitleCreateRequest.new, JobTitleUpdateRequest.new,
    JobTitlePartialUpdateRequest.new, GradeCreateRequest.new,
    GradeUpdateRequest.new, GradePartialUpdateRequest.new.
  repeat split; fields_pass; intros H.
  all: try (apply Hr; revert H).
  all: try (apply Hr in H; revert H).
  all: unfold JobTitleCreateRequest.validate_rank, JobTitleUpdateRequest.validate_rank,
         GradeCreateRequest.validate_rank, GradeUpdateRequest.validate_rank,
         optional, JobTitlePartialUpdateRequest.validate_rank,
         GradePartialUpdateRequest.validate_rank.
  all: destruct ((r <? 1) || (r >? 99999)); cbn; try done.
Qed.

(** C4, as stated, fails on the dependent model: with every field omitted
    [DependentPartialUpdateRequest] is rejected, and it accepts a gender
    that [DependentCreateRequest] rejects. *)
Lemma dependent_partial_update_counterexample :
  is_valid (DependentPartialUpdateRequest.new Dependent.nothing) = false /\
  is_valid (DependentPartialUpdateRequest.new
              (Dependent.minimal "r1" "Yamada" "Hanako" "2001-02-03" "other"
                 "living_together")) = true /\
  is_valid (DependentCreateRequest.new
              (Dependent.minimal "r1" "Yamada" "Hanako" "2001-02-03" "other"
                 "living_together")) = false.
Proof. repeat split; vm_compute; reflexivity. Qed.

Lemma passes_required_given {T} (inj : T -> pyval) validator (s : supply T) :
  passes (required inj validator s) = true -> given s = true.
Proof. by destruct s as [|[v|]]. Qed.

(** C4, amended: the department, employment type, job title, grade and job
    category partial-update models accept a call that supplies nothing, and
    accept a supplied name or rank exactly when the create model does; the
    dependent partial-update model is accepted only if relation_id,
    last_name, first_name, birth_at, gender and live_together_type are all
    supplied. *)
Theorem partial_update_models (name code parent_id : supply string)
    (position : supply Z) (n : string) (r : Z) (d : Dependent.fields) :
  is_valid (DepartmentPartialUpdateRequest.new Omitted Omitted Omitted Omitted) = true /\
  is_valid (EmploymentTypePartialUpdateRequest.new Omitted Omitted) = true /\
  is_valid (JobTitlePartialUpdateRequest.new Omitted Omitted Omitted) = true /\
  is_valid (GradePartialUpdateRequest.new Omitted Omitted) = true /\
  is_valid (JobCategoryPartialUpdateRequest.new Omitted) = true /\
  is_valid (DepartmentPartialUpdateRequest.new (Supplied (Some n)) position code parent_id)
    = is_valid (DepartmentCreateRequest.new (Supplied (Some n)) position code parent_id) /\
  is_valid (JobTitlePartialUpdateRequest.new name (Supplied (Some r)) code)
    = is_valid (JobTitleCreateRequest.new (Supplied (Some n)) (Supplied (Some r)) code) /\
  is_valid (GradePartialUpdateRequest.new name (Supplied (Some r)))
    = is_valid (GradeCreateRequest.new (Supplied (Some n)) (Supplied (Some r))) /\
  is_valid (EmploymentTypePartialUpdateRequest.new name code) = true /\
  is_valid (JobCategoryPartialUpdateRequest.new name) = true /\
  (is_valid (DependentPartialUpdateRequest.new d) = true ->
   Dependent.required_given d = true).
Proof.
  repeat split; try reflexivity.
  - unfold DepartmentPartialUpdateRequest.new, DepartmentCreateRequest.new.
    fields_pass. unfold optional, DepartmentPartialUpdateRequest.validate_name,
      DepartmentCreateRequest.validate_name.
    by destruct (contains "/"%char n).
  - unfold JobTitlePartialUpdateRequest.new, JobTitleCreateRequest.new.
    fields_pass. unfold optional, JobTitlePartialUpdateRequest.validate_rank,
      JobTitleCreateRequest.validate_rank.
    by destruct ((r <? 1) || (r >? 99999)).
  - unfold GradePartialUpdateRequest.new, GradeCreateRequest.new.
    fields_pass. unfold optional, GradePartialUpdateRequest.validate_rank,
      GradeCreateRequest.validate_rank.
    by destruct ((r <? 1) || (r >? 99999)).
  - unfold EmploymentTypePartialUpdateRequest.new. by fields_pass.
  - unfold JobCategoryPartialUpdateRequest.new. by fields_pass.
  - unfold DependentPartialUpdateRequest.new, Dependent.required_given.
    rewrite is_valid_construct. cbn [forallb snd].
    intros H. rewrite !andb_true_iff in H.
    repeat match goal with H : _ /\ _ |- _ => destruct H end.
    repeat match goal with
           | H : passes (required _ _ _) = true |- _ =>
               apply passes_required_given in H; rewrite H; clear H
           end.
    reflexivity.
Qed.

Lemma partial_update_models_witness :
  is_valid (DependentPartialUpdateRequest.new
              (Dependent.minimal "r1" "Yamada" "Hanako" "2001-02-03" "female"
                 "living_separately")) = true /\
  Dependent.required_given
    (Dependent.minimal "r1" "Yamada" "Hanako" "2001-02-03" "female"
       "living_separately") = true.
Proof.
  split; [vm_compute; reflexivity|].
  apply (partial_update_models Omitted Omitted Omitted Omitted "n" 1
           (Dependent.minimal "r1" "Yamada" "Hanako" "2001-02-03" "female"
              "living_separately")).
  vm_compute; reflexivity.
Defined.

(** * Dates *)

Lemma date_ltb_irrefl d : date_ltb d d = false.
Proof.
  unfold date_ltb. rewrite !Z.ltb_irrefl, !Z.eqb_refl. reflexivity.
Qed.

Lemma date_ltb_asym a b : date_ltb a b = true -> date_ltb b a = false.
Proof.
  unfold date_ltb. intros H.
  apply orb_true_iff in H.
  apply orb_false_iff.
  rewrite andb_false_iff, orb_false_iff, andb_false_iff.
  rewrite !Z.ltb_ge, !Z.eqb_neq.
  rewrite andb_true_iff, orb_true_iff, andb_true_iff in H.
  rewrite !Z.ltb_lt, !Z.eqb_eq in H.
  lia.
Qed.

(** What the model's validator accepts: a text that parses to a date not
    after today. *)
Lemma discontinue_model_accepts now v :
  is_valid (DepartmentDiscontinueRequest.new now (Supplied (Some v))) = true <->
  exists d, strptime v = Some d /\ date_ltb now d = false.
Proof.
  unfold DepartmentDiscontinueRequest.new. fields_pass.
  unfold DepartmentDiscontinueRequest.validate_discontinued_date.
  destruct (strptime v) as [d|].
  - destruct (date_ltb now d) eqn:E; cbn; split; try done.
    + intros (d' & [= <-] & H'). congruence.
    + intros _. by exists d.
  - cbn. split; [done|]. by intros (d' & [=] & _).
Qed.

(** C5 (the code departs from the claim): the validator of
    [DepartmentDiscontinueRequest] accepts a text that parses to today's
    date, where the claim has it rejected. *)
Theorem discontinue_model_accepts_today now v :
  strptime v = Some now ->
  is_valid (DepartmentDiscontinueRequest.new now (Supplied (Some v))) = true.
Proof.
  intros H. apply discontinue_model_accepts.
  exists now. split; [exact H | apply date_ltb_irrefl].
Qed.

Lemma discontinue_model_accepts_today_witness :
  strptime "2025-03-10" = Some (mkDate 2025 3 10) /\
  is_valid (DepartmentDiscontinueRequest.new (mkDate 2025 3 10)
              (Supplied (Some "2025-03-10"))) = true.
Proof.
  split; [reflexivity|].
  apply (discontinue_model_accepts_today (mkDate 2025 3 10) "2025-03-10").
  reflexivity.
Defined.

(** * Properties of the client *)

Import SmartHRClient.

Lemma discontinue_payload s :
  dict false false
    (mkModel (<["discontinued_date" := PStr s]> ∅) ({["discontinued_date"]} ∪ ∅))
  = PDict {[ "discontinued_date" := PStr s ]}.
Proof. vm_compute. reflexivity. Qed.

(** C6: when the date parses and is today or later, [discontinue_department]
    raises [ValueError] and no request has been sent; when the date parses
    and is before today, it sends exactly one request, a POST to
    /v1/departments/{id}/discontinue. *)
Theorem discontinue_department_precondition self w department_id discontinued_date d :
  strptime discontinued_date = Some d ->
  (date_ltb d (today w) = false ->
     (exists msg, result (discontinue_department self department_id discontinued_date) w
                  = Raise (ValueError msg)) /\
     sent (discontinue_department self department_id discontinued_date) w = []) /\
  (date_ltb d (today w) = true ->
     sent (discontinue_department self department_id discontinued_date) w
     = [mkRequest POST
          (base_url self +:+ "/v1/departments/" +:+ department_id +:+ "/discontinue")
          None (Some (PDict {[ "discontinued_date" := PStr discontinued_date ]}))
          (Some (headers self))]).
Proof.
  intros Hparse. split; intros Hcmp.
  - unfold result, sent, discontinue_department, bind, get_today, ret, raise.
    rewrite Hparse, Hcmp. cbn. eauto.
  - unfold sent, discontinue_department, bind, get_today, ret, raise.
    rewrite Hparse, Hcmp. cbn [negb fst snd].
    unfold DepartmentDiscontinueRequest.new, construct, collect, required,
      DepartmentDiscontinueRequest.validate_discontinued_date.
    rewrite Hparse, (date_ltb_asym _ _ Hcmp).
    cbn [at_field values fields_set].
    rewrite discontinue_payload.
    unfold http, send, raise_for_status.
    destruct (remote w [] _) as [resp|]; [|reflexivity].
    cbn [app].
    destruct (is_http_error (status_code resp)); reflexivity.
Qed.

Lemma discontinue_department_precondition_witness :
  strptime "2025-03-09" = Some (mkDate 2025 3 9) /\
  sent (discontinue_department sample_client "42" "2025-03-09")
    (answering (mkResponse 201 "" None) (mkDate 2025 3 10))
  = [mkRequest POST "https://app.smarthr.jp/api/v1/departments/42/discontinue"
       None (Some (PDict {[ "discontinued_date" := PStr "2025-03-09" ]}))
       (Some (headers sample_client))].
Proof.
  split; [reflexivity|].
  apply (discontinue_department_precondition sample_client
           (answering (mkResponse 201 "" None) (mkDate 2025 3 10))
           "42" "2025-03-09" (mkDate 2025 3 9)); reflexivity.
Defined.

(** Unfolding a client method down to the exchange with the remote side. *)
Ltac run_method :=
  unfold result, sent, _request, checked_json, http, bind, send,
    raise_for_status, response_json, ret, raise.

Ltac answer H := rewrite ?H; cbn [app fst snd].

Lemma is_http_error_204 : is_http_error 204 = false.
Proof. reflexivity. Qed.

(** The definition of [list_employment_types] in force sends nothing. *)
Lemma list_employment_types_sends_nothing w page per_page :
  sent (list_employment_types page per_page) w = [] /\
  result (list_employment_types page per_page) w = Return PNone.
Proof. split; reflexivity. Qed.

(** C1 (the code departs from the claim): when the DELETE of
    [delete_job_title] is answered with anything but a 4xx or 5xx status,
    the method goes on to send a second request, a GET of
    /v1/employment_types. *)
Theorem delete_job_title_sends_two_requests self w job_title_id resp :
  first_response w resp ->
  is_http_error (status_code resp) = false ->
  sent (delete_job_title self job_title_id) w
  = [mkRequest DELETE (base_url self +:+ "/v1/job_titles/" +:+ job_title_id)
       None None (Some (headers self));
     mkRequest GET (base_url self +:+ "/v1/employment_types")
       None None (Some (headers self))].
Proof.
  intros Hfirst Hstatus.
  unfold delete_job_title. run_method. answer Hfirst. rewrite Hstatus.
  destruct (remote w _ _) as [resp'|]; [|reflexivity].
  cbn [app fst snd].
  destruct (is_http_error (status_code resp')); [reflexivity|].
  destruct (json_body resp'); reflexivity.
Qed.

Lemma delete_job_title_sends_two_requests_witness :
  length (sent (delete_job_title sample_client "7")
            (answering (mkResponse 204 "" None) (mkDate 2025 3 10))) = 2%nat.
Proof.
  rewrite (delete_job_title_sends_two_requests sample_client
             (answering (mkResponse 204 "" None) (mkDate 2025 3 10)) "7"
             (mkResponse 204 "" None)).
  - reflexivity.
  - intros req. reflexivity.
  - reflexivity.
Defined.

(** The sibling [delete_crew] raises on an error status. *)
Lemma delete_crew_raises self w crew_id resp :
  first_response w resp ->
  is_http_error (status_code resp) = true ->
  result (delete_crew self crew_id) w = Raise (HTTPError resp).
Proof.
  intros Hfirst Hstatus.
  unfold delete_crew. run_method. answer Hfirst. by rewrite Hstatus.
Qed.

(** C2 (the code departs from the claim): [delete_grade] returns [None]
    whatever the status of the response, a 4xx or 5xx status included. *)
Theorem delete_grade_ignores_status self w grade_id resp :
  first_response w resp ->
  result (delete_grade self grade_id) w = Return PNone.
Proof.
  intros Hfirst. unfold delete_grade. run_method. by answer Hfirst.
Qed.

Lemma delete_grade_ignores_status_witness :
  is_http_error 404 = true /\
  result (delete_grade sample_client "3")
    (answering (mkResponse 404 "not found" None) (mkDate 2025 3 10))
  = Return PNone.
Proof.
  split; [reflexivity|].
  apply (delete_grade_ignores_status sample_client _ "3"
           (mkResponse 404 "not found" None)).
  intros req. reflexivity.
Defined.

(** [_request] turns a 204 into the marker without decoding the body. *)
Lemma request_no_content self w resp method endpoint params json :
  first_response w resp ->
  status_code resp = 204 ->
  result (_request self method endpoint params json) w = Return no_content.
Proof.
  intros Hfirst Hstatus. run_method. answer Hfirst. by rewrite Hstatus.
Qed.

(** C3, as stated, fails: on a 204 [delete_crew] and [delete_dependent]
    return [None], not the marker. *)
Lemma delete_returns_none_counterexample :
  result (delete_crew sample_client "7")
    (answering (mkResponse 204 "" None) (mkDate 2025 3 10)) = Return PNone /\
  result (delete_dependent sample_client "7" "9")
    (answering (mkResponse 204 "" None) (mkDate 2025 3 10)) = Return PNone /\
  PNone <> no_content.
Proof. repeat split; done. Qed.

(** C3, amended: on a 204, [delete_crew], [delete_employment_type],
    [delete_grade] and [delete_dependent] send their one request, decode no
    body, raise nothing and return [None]; the marker is what [_request]
    returns, and [delete_dependent] drops it. *)
Theorem delete_on_no_content self w resp id crew_id dependent_id :
  first_response w resp ->
  status_code resp = 204 ->
  (result (delete_crew self id) w = Return PNone /\
   length (sent (delete_crew self id) w) = 1%nat) /\
  (result (delete_employment_type self id) w = Return PNone /\
   length (sent (delete_employment_type self id) w) = 1%nat) /\
  (result (delete_grade self id) w = Return PNone /\
   length (sent (delete_grade self id) w) = 1%nat) /\
  (result (delete_dependent self crew_id dependent_id) w = Return PNone /\
   length (sent (delete_dependent self crew_id dependent_id) w) = 1%nat) /\
  (forall method endpoint params json,
     result (_request self method endpoint params json) w = Return no_content).
Proof.
  intros Hfirst Hstatus.
  unfold delete_crew, delete_employment_type, delete_grade, delete_dependent.
  run_method.
  repeat split; intros; answer Hfirst; rewrite ?Hstatus; reflexivity.
Qed.

Lemma delete_on_no_content_witness :
  result (delete_dependent sample_client "7" "9")
    (answering (mkResponse 204 "" None) (mkDate 2025 3 10)) = Return PNone.
Proof.
  apply (delete_on_no_content sample_client
           (answering (mkResponse 204 "" None) (mkDate 2025 3 10))
           (mkResponse 204 "" None) "1" "7" "9").
  - intros req. reflexivity.
  - reflexivity.
Defined.

(** * [list_dependents] *)

(** The test of [list_dependents]: a dict whose entry [dependents] is the
    empty list. *)
Lemma empty_dependents_spec v :
  empty_dependents v = true <->
  exists d, v = PDict d /\ d !! "dependents" = Some (PList []).
Proof.
  split.
  - destruct v as [| | | | |d|]; try discriminate. cbn.
    destruct (d !! "dependents") as [[| | | |[|]| |]|] eqn:E; try discriminate.
    intros _. by exists d.
  - intros (d & -> & E). cbn. by rewrite E.
Qed.

(** C9, as stated, fails: a successful body that has other entries beside
    an empty [dependents] list is not returned unchanged. *)
Lemma list_dependents_counterexample :
  result (list_dependents sample_client (AStr "7") (AInt 1) (AInt 10) ∅)
    (answering
       (mkResponse 200 ""
          (Some (PDict {[ "dependents" := PList []; "total_count" := PInt 0 ]})))
       (mkDate 2025 3 10))
  = Return (PDict {[ "message" := PStr "この従業員には家族情報が登録されていません。";
                     "dependents" := PList [] ]}) /\
  PDict {[ "message" := PStr "この従業員には家族情報が登録されていません。";
           "dependents" := PList [] ]}
  <> PDict {[ "dependents" := PList []; "total_count" := PInt 0 ]}.
Proof.
  split; [vm_compute; reflexivity|].
  intros H.
  assert (E := f_equal (fun v => match v with
                                 | PDict d => d !! "total_count"
                                 | _ => None
                                 end) H).
  vm_compute in E. discriminate.
Qed.

(** C9, amended: when the decoded body of a successful response is a dict
    whose [dependents] entry is the empty list, whatever else it holds,
    [list_dependents] returns the message together with the empty list; the
    body [{"dependents": []}] is such a dict.  Every other decoded body is
    returned unchanged. *)
Theorem list_dependents_normalization self w resp crew_id page per_page kwargs v :
  first_response w resp ->
  status_code resp <> 204 ->
  is_http_error (status_code resp) = false ->
  json_body resp = Some v ->
  empty_dependents (PDict {[ "dependents" := PList [] ]}) = true /\
  (empty_dependents v = true ->
   result (list_dependents self crew_id page per_page kwargs) w
   = Return (PDict {[ "message" := PStr "この従業員には家族情報が登録されていません。";
                      "dependents" := PList [] ]})) /\
  (empty_dependents v = false ->
   result (list_dependents self crew_id page per_page kwargs) w = Return v).
Proof.
  intros Hfirst H204 Herr Hjson.
  apply Z.eqb_neq in H204.
  split; [reflexivity|].
  unfold list_dependents. run_method.
  split; intros Hempty; answer Hfirst; rewrite H204, Herr, Hjson; cbn;
    by rewrite Hempty.
Qed.

Lemma list_dependents_normalization_witness :
  result (list_dependents sample_client (AStr "7") (AInt 1) (AInt 10) ∅)
    (answering (mkResponse 200 "" (Some (PDict {[ "dependents" := PList [] ]})))
       (mkDate 2025 3 10))
  = Return (PDict {[ "message" := PStr "この従業員には家族情報が登録されていません。";
                     "dependents" := PList [] ]}).
Proof.
  apply (list_dependents_normalization sample_client
           (answering (mkResponse 200 "" (Some (PDict {[ "dependents" := PList [] ]})))
              (mkDate 2025 3 10))
           (mkResponse 200 "" (Some (PDict {[ "dependents" := PList [] ]})))
           (AStr "7") (AInt 1) (AInt 10) ∅ (PDict {[ "dependents" := PList [] ]})).
  - intros req. reflexivity.
  - discriminate.
  - reflexivity.
  - reflexivity.
  - reflexivity.
Defined.

(** * Argument binding *)

Section binding.

Lemma bind_positional_other ps vs acc a n :
  bind_positional ps vs acc = Return a ->
  n ∉ fst <$> take (length vs) ps ->
  a !! n = acc !! n.
Proof.
  revert ps acc. induction vs as [|v vs IH]; intros ps acc; simpl.
  - by intros [= <-].
  - destruct ps as [|[n0 d0] ps]; [discriminate|]. simpl.
    intros Hbind Hn. apply not_elem_of_cons in Hn as [Hne Hn].
    rewrite (IH _ _ Hbind Hn). by rewrite lookup_insert_ne.
Qed.

Lemma bind_keywords_args_other sg kws b b' n :
  bind_keywords sg kws b = Return b' ->
  n ∉ fst <$> kws ->
  args b' !! n = args b !! n.
Proof.
  revert b. induction kws as [|[k v] kws IH]; intros b; simpl.
  - by intros [= <-].
  - intros Hbind Hn. apply not_elem_of_cons in Hn as [Hne Hn].
    case_bool_decide.
    + destruct (args b !! k); [discriminate|].
      rewrite (IH _ Hbind Hn). simpl. by rewrite lookup_insert_ne.
    + destruct (var_keyword sg); [|discriminate].
      destruct (kwargs b !! k); [discriminate|].
      by rewrite (IH _ Hbind Hn).
Qed.

(** [**kwargs] never holds a declared name. *)
Lemma bind_keywords_kwargs_fresh sg kws b b' :
  bind_keywords sg kws b = Return b' ->
  (forall k, is_Some (kwargs b !! k) -> k ∉ names sg) ->
  forall k, is_Some (kwargs b' !! k) -> k ∉ names sg.
Proof.
  revert b. induction kws as [|[k v] kws IH]; intros b; simpl.
  - by intros [= <-].
  - intros Hbind Hfresh. case_bool_decide as Hk.
    + destruct (args b !! k); [discriminate|].
      by apply (IH _ Hbind).
    + destruct (var_keyword sg); [|discriminate].
      destruct (kwargs b !! k) eqn:E; [discriminate|].
      apply (IH _ Hbind). simpl. intros k' Hk'.
      destruct (decide (k = k')) as [<-|Hne]; [done|].
      rewrite lookup_insert_ne in Hk' by done. by apply Hfresh.
Qed.

(** Once in [**kwargs], a keyword stays as it is. *)
Lemma bind_keywords_kwargs_kept sg kws b b' k v :
  bind_keywords sg kws b = Return b' ->
  kwargs b !! k = Some v ->
  kwargs b' !! k = Some v.
Proof.
  revert b. induction kws as [|[k0 v0] kws IH]; intros b; simpl.
  - by intros [= <-].
  - intros Hbind Hk. case_bool_decide.
    + destruct (args b !! k0); [discriminate|].
      by apply (IH _ Hbind).
    + destruct (var_keyword sg); [|discriminate].
      destruct (kwargs b !! k0) eqn:E; [discriminate|].
      apply (IH _ Hbind). simpl.
      rewrite lookup_insert_ne; [done|]. congruence.
Qed.

(** A keyword that names no declared parameter lands in [**kwargs]. *)
Lemma bind_keywords_extra sg kws b b' k v :
  bind_keywords sg kws b = Return b' ->
  (k, v) ∈ kws ->
  k ∉ names sg ->
  kwargs b' !! k = Some v.
Proof.
  revert b. induction kws as [|[k0 v0] kws IH]; intros b; simpl.
  - intros _ Hin. by apply elem_of_nil in Hin.
  - intros Hbind Hin Hk. apply elem_of_cons in Hin as [[= <- <-]|Hin].
    + rewrite bool_decide_eq_false_2 in Hbind by done.
      destruct (var_keyword sg); [|discriminate].
      destruct (kwargs b !! k); [discriminate|].
      apply (bind_keywords_kwargs_kept _ _ _ _ _ _ Hbind).
      simpl. by rewrite lookup_insert_eq.
    + case_bool_decide.
      * destruct (args b !! k0); [discriminate|]. by apply (IH _ Hbind).
      * destruct (var_keyword sg); [|discriminate].
        destruct (kwargs b !! k0); [discriminate|]. by apply (IH _ Hbind).
Qed.

Lemma fill_defaults_kept ps a a' n v :
  fill_defaults ps a = Return a' ->
  a !! n = Some v ->
  a' !! n = Some v.
Proof.
  revert a. induction ps as [|[n0 d0] ps IH]; intros a; simpl.
  - by intros [= <-].
  - intros Hfill Hn. destruct (a !! n0) eqn:E.
    + by apply (IH _ Hfill).
    + destruct d0 as [v0|]; [|discriminate].
      apply (IH _ Hfill). rewrite lookup_insert_ne; [done|]. congruence.
Qed.

Lemma fill_defaults_default ps a a' n i n' d :
  fill_defaults ps a = Return a' ->
  list_find (fun p => p.1 = n) ps = Some (i, (n', d)) ->
  a !! n = None ->
  a' !! n = d.
Proof.
  revert a i. induction ps as [|[n0 d0] ps IH]; intros a i; simpl.
  - discriminate.
  - intros Hfill Hfind Hn. case_decide as Hn0; simpl in Hn0.
    + injection Hfind as <- <- <-. subst n0. rewrite Hn in Hfill.
      destruct d0 as [v0|]; [|discriminate].
      apply (fill_defaults_kept _ _ _ _ _ Hfill). by rewrite lookup_insert_eq.
    + destruct (list_find _ ps) as [[j [n1 d1]]|] eqn:E; [|discriminate].
      injection Hfind as <- <- <-.
      destruct (a !! n0) eqn:E0.
      * by apply (IH _ j Hfill).
      * destruct d0 as [v0|]; [|discriminate].
        apply (IH _ j Hfill); [done|]. by rewrite lookup_insert_ne.
Qed.

(** A parameter the call does not pass is bound to its default. *)
Lemma bind_args_default sg c b n v :
  bind_args sg c = Return b ->
  supplies sg c n = false ->
  default_of sg n = Some v ->
  arg b n = v.
Proof.
  unfold bind_args, supplies, default_of, arg.
  intros Hbind Hsup Hdef.
  apply orb_false_iff in Hsup as [Hpos Hkw].
  apply bool_decide_eq_false in Hpos. apply bool_decide_eq_false in Hkw.
  destruct (bind_positional _ _ _) as [a|] eqn:E1; [|discriminate].
  destruct (bind_keywords _ _ _) as [b1|] eqn:E2; [|discriminate].
  destruct (fill_defaults _ _) as [a'|] eqn:E3; [|discriminate].
  injection Hbind as <-. simpl.
  destruct (list_find _ (declared sg)) as [[i [n1 d1]]|] eqn:E4; [|discriminate].
  simpl in Hdef. subst d1.
  rewrite (fill_defaults_default _ _ _ _ _ _ _ E3 E4); [done|].
  rewrite (bind_keywords_args_other _ _ _ _ _ E2 Hkw). simpl.
  rewrite (bind_positional_other _ _ _ _ _ E1 Hpos). apply lookup_empty.
Qed.

(** After binding, [**kwargs] holds no declared name, and holds every
    keyword of the call that names no declared parameter. *)
Lemma bind_args_kwargs sg c b :
  bind_args sg c = Return b ->
  (forall k, is_Some (kwargs b !! k) -> k ∉ names sg) /\
  (forall k v, (k, v) ∈ keywords c -> k ∉ names sg -> kwargs b !! k = Some v).
Proof.
  unfold bind_args. intros Hbind.
  destruct (bind_positional _ _ _) as [a|] eqn:E1; [|discriminate].
  destruct (bind_keywords _ _ _) as [b1|] eqn:E2; [|discriminate].
  destruct (fill_defaults _ _) as [a'|] eqn:E3; [|discriminate].
  injection Hbind as <-. simpl. split.
  - apply (bind_keywords_kwargs_fresh _ _ _ _ E2). simpl.
    intros k [x Hx]. by rewrite lookup_empty in Hx.
  - intros k v Hin Hk. by apply (bind_keywords_extra _ _ _ _ _ _ E2).
Qed.

Lemma bind_positional_raises ps vs acc e :
  bind_positional ps vs acc = Raise e -> exists msg, e = TypeError msg.
Proof.
  revert ps acc. induction vs as [|v vs IH]; intros ps acc; simpl; [discriminate|].
  destruct ps as [|[n d] ps]; [intros [= <-]; eauto | apply IH].
Qed.

Lemma bind_positional_kept ps vs acc a n :
  bind_positional ps vs acc = Return a ->
  is_Some (acc !! n) ->
  is_Some (a !! n).
Proof.
  revert ps acc. induction vs as [|v vs IH]; intros ps acc; simpl.
  - by intros [= <-].
  - destruct ps as [|[n0 d0] ps]; [discriminate|].
    intros Hbind Hn. apply (IH _ _ Hbind).
    destruct (decide (n0 = n)) as [->|Hne].
    + rewrite lookup_insert_eq. eauto.
    + by rewrite lookup_insert_ne.
Qed.

(** A parameter passed by position is bound. *)
Lemma bind_positional_bound ps vs acc a n :
  bind_positional ps vs acc = Return a ->
  n ∈ fst <$> take (length vs) ps ->
  is_Some (a !! n).
Proof.
  revert ps acc. induction vs as [|v vs IH]; intros ps acc; simpl.
  - intros _ Hn. by apply elem_of_nil in Hn.
  - destruct ps as [|[n0 d0] ps]; [discriminate|]. simpl.
    intros Hbind Hn. apply elem_of_cons in Hn as [->|Hn].
    + apply (bind_positional_kept _ _ _ _ _ Hbind).
      rewrite lookup_insert_eq. eauto.
    + by apply (IH _ _ Hbind).
Qed.

(** A keyword for a parameter that is bound already is refused. *)
Lemma bind_keywords_twice sg kws b n :
  is_Some (args b !! n) ->
  n ∈ fst <$> kws ->
  n ∈ names sg ->
  exists msg, bind_keywords sg kws b = Raise (TypeError msg).
Proof.
  intros Hbound Hkw Hn. revert b Hbound.
  induction kws as [|[k0 v0] kws IH]; intros b Hbound; simpl.
  - by apply elem_of_nil in Hkw.
  - simpl in Hkw. apply elem_of_cons in Hkw as [<-|Hkw].
    + rewrite bool_decide_eq_true_2 by done.
      destruct Hbound as [x ->]. eauto.
    + case_bool_decide as Hk0.
      * destruct (args b !! k0) eqn:E; [eauto|].
        apply (IH Hkw). simpl.
        rewrite lookup_insert_ne; [done|]. intros ->.
        rewrite E in Hbound. by destruct Hbound.
      * destruct (var_keyword sg); [|eauto].
        destruct (kwargs b !! k0); [eauto|]. by apply (IH Hkw).
Qed.

(** Passing a declared parameter both by position and by keyword is a
    [TypeError]. *)
Lemma bind_args_twice sg c n :
  n ∈ fst <$> take (length (positional c)) (declared sg) ->
  n ∈ fst <$> keywords c ->
  exists msg, bind_args sg c = Raise (TypeError msg).
Proof.
  intros Hpos Hkw. unfold bind_args.
  destruct (bind_positional _ _ _) as [a|e] eqn:E.
  - assert (n ∈ names sg) as Hn.
    { unfold names. apply list_elem_of_fmap in Hpos as (p & -> & Hp).
      apply list_elem_of_fmap. exists p. split; [done|].
      by apply (subseteq_take (length (positional c)) (declared sg)). }
    destruct (bind_keywords_twice sg (keywords c) (mkBound a ∅) n) as [msg ->];
      [by apply (bind_positional_bound _ _ _ _ _ E) | done | done | eauto].
  - apply bind_positional_raises in E as [msg ->]. eauto.
Qed.

End binding.

(** * Paging defaults *)

(** C7, as stated, fails on [list_relations]: called without arguments it
    asks for 100 items per page. *)
Lemma list_relations_default_counterexample :
  req_params <$>
    sent (call_list_relations sample_client (mkCall [] []))
      (answering (mkResponse 200 "" (Some (PList []))) (mkDate 2025 3 10))
  = [Some {[ "page" := AInt 1; "per_page" := AInt 100 ]}].
Proof. vm_compute. reflexivity. Qed.

(** C7, amended: every list method declares [page] and [per_page]; in a
    call that passes neither, [page] is bound to 1 and [per_page] to 10,
    except in [list_relations], where [per_page] is bound to 100. *)
Theorem list_defaults m c b :
  bind_args (signature_of m) c = Return b ->
  supplies (signature_of m) c "page" = false ->
  supplies (signature_of m) c "per_page" = false ->
  "page" ∈ names (signature_of m) /\
  "per_page" ∈ names (signature_of m) /\
  arg b "page" = AInt 1 /\
  (m <> ListRelations -> arg b "per_page" = AInt 10) /\
  (m = ListRelations -> arg b "per_page" = AInt 100).
Proof.
  intros Hbind Hpage Hper.
  split; [destruct m; vm_compute; set_solver|].
  split; [destruct m; vm_compute; set_solver|].
  split; [|split].
  - apply (bind_args_default _ _ _ _ _ Hbind Hpage). by destruct m.
  - intros Hm. apply (bind_args_default _ _ _ _ _ Hbind Hper).
    by destruct m.
  - intros ->. by apply (bind_args_default _ _ _ _ _ Hbind Hper).
Qed.

Lemma list_defaults_witness :
  arg (mkBound {[ "self" := receiver; "page" := AInt 1; "per_page" := AInt 10;
                  "code" := ANone; "sort" := AStr "name" ]} ∅) "per_page" = AInt 10.
Proof.
  refine (proj1 (proj2 (proj2 (proj2
    (list_defaults ListDepartments (method_call (mkCall [] [("sort", AStr "name")]))
       (mkBound {[ "self" := receiver; "page" := AInt 1; "per_page" := AInt 10;
                   "code" := ANone; "sort" := AStr "name" ]} ∅) _ _ _)))) _).
  - vm_compute. reflexivity.
  - vm_compute. reflexivity.
  - vm_compute. reflexivity.
  - discriminate.
Defined.

(** * Extra keyword arguments *)

Lemma set_if_other key value (params : gmap string atom) k :
  key <> k -> set_if key value params !! k = params !! k.
Proof.
  intros Hne. unfold set_if. destruct (truthy value); [|done].
  by rewrite lookup_insert_ne.
Qed.

(** The query parameters [list_crews] sends. *)
Lemma list_crews_params self w page per_page emp_code emp_type employment_type_id
    emp_status gender entered_at_from entered_at_to resigned_at_from resigned_at_to
    department_id (kwargs : gmap string atom) :
  kwargs !! "page" = None ->
  kwargs !! "per_page" = None ->
  exists params,
    req_params <$>
      sent (list_crews self page per_page emp_code emp_type employment_type_id
              emp_status gender entered_at_from entered_at_to resigned_at_from
              resigned_at_to department_id kwargs) w = [Some params] /\
    (forall k v, kwargs !! k = Some v -> params !! k = Some v) /\
    params !! "page" = Some page /\
    params !! "per_page" = Some per_page.
Proof.
  intros Hpage Hper. eexists. split; [|split; [|split]].
  - unfold list_crews. run_method.
    destruct (remote w [] _) as [resp|]; [|reflexivity].
    cbn [app fst snd].
    destruct (is_http_error (status_code resp)); [reflexivity|].
    destruct (json_body resp); reflexivity.
  - intros k v Hk. by apply lookup_union_Some_l.
  - rewrite lookup_union_r by done.
    rewrite !set_if_other by done. by simplify_map_eq.
  - rewrite lookup_union_r by done.
    rewrite !set_if_other by done. by simplify_map_eq.
Qed.

(** The query parameters [list_dependents] sends. *)
Lemma list_dependents_params self w crew_id page per_page (kwargs : gmap string atom) :
  kwargs !! "page" = None ->
  kwargs !! "per_page" = None ->
  exists params,
    req_params <$> sent (list_dependents self crew_id page per_page kwargs) w
      = [Some params] /\
    (forall k v, kwargs !! k = Some v -> params !! k = Some v) /\
    params !! "page" = Some page /\
    params !! "per_page" = Some per_page.
Proof.
  intros Hpage Hper. eexists. split; [|split; [|split]].
  - unfold list_dependents. run_method.
    destruct (remote w [] _) as [resp|]; [|reflexivity].
    cbn [app fst snd].
    destruct (status_code resp =? 204).
    + cbn. reflexivity.
    + destruct (is_http_error (status_code resp)); [reflexivity|].
      destruct (json_body resp) as [v|]; [|reflexivity].
      cbn [fst snd]. destruct (empty_dependents v); reflexivity.
  - intros k v Hk. by apply lookup_union_Some_l.
  - rewrite lookup_union_r by done. by simplify_map_eq.
  - rewrite lookup_union_r by done. by simplify_map_eq.
Qed.

Lemma not_bound_twice (kw : gmap string atom) (ns : list string) k :
  (forall k, is_Some (kw !! k) -> k ∉ ns) -> k ∈ ns -> kw !! k = None.
Proof.
  intros Hfresh Hin. destruct (kw !! k) eqn:E; [|done].
  exfalso. by apply (Hfresh k).
Qed.

(** C10, as stated, fails: a keyword named [page] cannot override a [page]
    passed by position; the call raises [TypeError] and sends nothing. *)
Lemma keyword_page_counterexample :
  call_list_dependents sample_client
    (mkCall [AStr "7"; AInt 2] [("page", AInt 5)])
    (answering (mkResponse 200 "" (Some (PList []))) (mkDate 2025 3 10)) []
  = (Raise (TypeError "got multiple values for argument"), []) /\
  call_list_crews sample_client
    (mkCall [AInt 2] [("page", AInt 5)])
    (answering (mkResponse 200 "" (Some (PList []))) (mkDate 2025 3 10)) []
  = (Raise (TypeError "got multiple values for argument"), []).
Proof. split; vm_compute; reflexivity. Qed.

(** C10, amended: in a call of [list_crews] or [list_dependents] that binds,
    every keyword that names no declared parameter is put into the query
    parameters of the one request, unchanged and unchecked, after the
    declared parameters; no such keyword is named [page] or [per_page], and
    the query carries the [page] and [per_page] the call bound.  A call that
    passes a declared parameter, [page] and [per_page] among them, both by
    position and by keyword raises [TypeError] and sends nothing. *)
Theorem extra_keywords_pass_through self w c b :
  (bind_args sig_list_crews (method_call c) = Return b ->
   exists params,
     req_params <$> sent (call_list_crews self c) w = [Some params] /\
     (forall k v, (k, v) ∈ keywords c -> k ∉ names sig_list_crews ->
                  params !! k = Some v) /\
     kwargs b !! "page" = None /\ kwargs b !! "per_page" = None /\
     params !! "page" = Some (arg b "page") /\
     params !! "per_page" = Some (arg b "per_page")) /\
  (bind_args sig_list_dependents (method_call c) = Return b ->
   exists params,
     req_params <$> sent (call_list_dependents self c) w = [Some params] /\
     (forall k v, (k, v) ∈ keywords c -> k ∉ names sig_list_dependents ->
                  params !! k = Some v) /\
     kwargs b !! "page" = None /\ kwargs b !! "per_page" = None /\
     params !! "page" = Some (arg b "page") /\
     params !! "per_page" = Some (arg b "per_page")) /\
  (forall n,
     n ∈ fst <$> take (length (positional (method_call c))) (declared sig_list_crews) ->
     n ∈ fst <$> keywords c ->
     (exists msg, result (call_list_crews self c) w = Raise (TypeError msg)) /\
     sent (call_list_crews self c) w = []) /\
  (forall n,
     n ∈ fst <$> take (length (positional (method_call c)))
                   (declared sig_list_dependents) ->
     n ∈ fst <$> keywords c ->
     (exists msg, result (call_list_dependents self c) w = Raise (TypeError msg)) /\
     sent (call_list_dependents self c) w = []).
Proof.
  split; [|split; [|split]].
  - intros Hbind.
    destruct (bind_args_kwargs _ _ _ Hbind) as [Hfresh Hextra].
    assert (kwargs b !! "page" = None) as Hpage.
    { apply (not_bound_twice _ _ _ Hfresh). vm_compute. set_solver. }
    assert (kwargs b !! "per_page" = None) as Hper.
    { apply (not_bound_twice _ _ _ Hfresh). vm_compute. set_solver. }
    destruct (list_crews_params self w (arg b "page") (arg b "per_page")
                (arg b "emp_code") (arg b "emp_type") (arg b "employment_type_id")
                (arg b "emp_status") (arg b "gender") (arg b "entered_at_from")
                (arg b "entered_at_to") (arg b "resigned_at_from")
                (arg b "resigned_at_to") (arg b "department_id") (kwargs b)
                Hpage Hper) as (params & Hsent & Hkw & Hp1 & Hp2).
    exists params. split; [|by eauto 10].
    unfold call_list_crews, sent, bind, lift. rewrite Hbind. exact Hsent.
  - intros Hbind.
    destruct (bind_args_kwargs _ _ _ Hbind) as [Hfresh Hextra].
    assert (kwargs b !! "page" = None) as Hpage.
    { apply (not_bound_twice _ _ _ Hfresh). vm_compute. set_solver. }
    assert (kwargs b !! "per_page" = None) as Hper.
    { apply (not_bound_twice _ _ _ Hfresh). vm_compute. set_solver. }
    destruct (list_dependents_params self w (arg b "crew_id") (arg b "page")
                (arg b "per_page") (kwargs b) Hpage Hper)
      as (params & Hsent & Hkw & Hp1 & Hp2).
    exists params. split; [|by eauto 10].
    unfold call_list_dependents, sent, bind, lift. rewrite Hbind. exact Hsent.
  - intros n Hpos Hkw.
    destruct (bind_args_twice _ _ _ Hpos Hkw) as [msg Hbind].
    unfold call_list_crews, result, sent, bind, lift. rewrite Hbind. eauto.
  - intros n Hpos Hkw.
    destruct (bind_args_twice _ _ _ Hpos Hkw) as [msg Hbind].
    unfold call_list_dependents, result, sent, bind, lift. rewrite Hbind. eauto.
Qed.

Lemma extra_keywords_pass_through_witness :
  (exists params,
     req_params <$>
       sent (call_list_dependents sample_client
               (mkCall [AStr "7"] [("page", AInt 5); ("relation", AStr "child")]))
         (answering (mkResponse 200 "" (Some (PList []))) (mkDate 2025 3 10))
       = [Some params] /\
     params !! "relation" = Some (AStr "child") /\
     params !! "page" = Some (AInt 5)) /\
  sent (call_list_crews sample_client (mkCall [] [("self", AInt 3)]))
    (answering (mkResponse 200 "" (Some (PList []))) (mkDate 2025 3 10)) = [] /\
  sent (call_list_dependents sample_client
          (mkCall [AStr "7"; AInt 2] [("per_page", AInt 50); ("page", AInt 5)]))
    (answering (mkResponse 200 "" (Some (PList []))) (mkDate 2025 3 10)) = [].
Proof.
  split; [|split].
  - assert (bind_args sig_list_dependents
              (method_call
                 (mkCall [AStr "7"] [("page", AInt 5); ("relation", AStr "child")]))
            = Return (mkBound {[ "self" := receiver; "crew_id" := AStr "7";
                                 "page" := AInt 5; "per_page" := AInt 10 ]}
                              {[ "relation" := AStr "child" ]})) as Hbind.
    { vm_compute. reflexivity. }
    pose proof (proj1 (proj2 (extra_keywords_pass_through sample_client
                  (answering (mkResponse 200 "" (Some (PList []))) (mkDate 2025 3 10))
                  _ _)) Hbind) as H.
    destruct H as (params & Hsent & Hextra & _ & _ & Hpage & _).
    exists params. split; [exact Hsent|]. split; [|exact Hpage].
    apply Hextra; [set_solver|]. vm_compute. set_solver.
  - apply (proj1 (proj2 (proj2 (extra_keywords_pass_through sample_client
             (answering (mkResponse 200 "" (Some (PList []))) (mkDate 2025 3 10))
             (mkCall [] [("self", AInt 3)]) (mkBound ∅ ∅)))) "self").
    + vm_compute. set_solver.
    + vm_compute. set_solver.
  - apply (proj2 (proj2 (proj2 (extra_keywords_pass_through sample_client
             (answering (mkResponse 200 "" (Some (PList []))) (mkDate 2025 3 10))
             (mkCall [AStr "7"; AInt 2] [("per_page", AInt 50); ("page", AInt 5)])
             (mkBound ∅ ∅)))) "page").
    + vm_compute. set_solver.
    + vm_compute. set_solver.
Defined.

(** * Every method *)

Ltac unfold_methods :=
  unfold invoke, create_crew, get_crew, update_crew, list_crews, search_crews,
    invite_crew, delete_crew, partial_update_department, update_department,
    get_department, list_departments, create_department, list_employment_types,
    list_job_titles, create_job_title, get_job_title, update_job_title,
    partial_update_job_title, delete_job_title, discontinue_department,
    create_employment_type, get_employment_type, update_employment_type,
    partial_update_employment_type, delete_employment_type, list_grades,
    create_grade, get_grade, update_grade, partial_update_grade, delete_grade,
    list_job_categories, create_job_category, get_job_category, list_dependents,
    create_dependent, get_dependent, update_dependent, partial_update_dependent,
    delete_dependent, list_relations.

(** Apart from [delete_job_title], no method sends more than one request. *)
Lemma at_most_one_request self w i :
  (forall job_title_id, i <> CallDeleteJobTitle job_title_id) ->
  (length (sent (invoke self i) w) <= 1)%nat.
Proof.
  intros Hi. destruct i; try solve [exfalso; eapply Hi; reflexivity];
    unfold_methods; run_method; unfold get_today;
    repeat (case_match; simplify_eq/=); simpl; lia.
Qed.

(** Apart from [delete_grade], a method that has sent its request and
    receives a 4xx or 5xx status raises [HTTPError] with that response. *)
Lemma http_error_raised self w i resp :
  (forall grade_id, i <> CallDeleteGrade grade_id) ->
  first_response w resp ->
  is_http_error (status_code resp) = true ->
  sent (invoke self i) w <> [] ->
  result (invoke self i) w = Raise (HTTPError resp).
Proof.
  intros Hi Hfirst Hstatus.
  assert ((status_code resp =? 204) = false) as H204.
  { apply Z.eqb_neq. intros E. rewrite E in Hstatus. discriminate. }
  destruct i; try solve [exfalso; eapply Hi; reflexivity];
    unfold_methods; run_method; unfold get_today;
    rewrite ?Hfirst; cbn [app fst snd]; rewrite ?H204, ?Hstatus; try done.
  - (* discontinue_department *)
    repeat (case_match; simplify_eq/=); try done.
    all: rewrite ?Hfirst in *; simplify_eq/=; try done.
    all: rewrite ?Hstatus in *; simplify_eq/=; done.
  - (* partial_update_dependent *)
    repeat (case_match; simplify_eq/=); try done.
    all: rewrite ?Hfirst in *; simplify_eq/=; try done.
    all: rewrite ?H204, ?Hstatus in *; simplify_eq/=; done.
Qed.

(** * Further properties of the request models *)


Lemma contains_spec c s :
  contains c s = true <-> exists pre post, s = pre +:+ String c post.
Proof.
  induction s as [|a s IH]; simpl.
  - split; [discriminate|]. intros ([|? ?] & post & H); discriminate.
  - rewrite orb_true_iff, IH. split.
    + intros [Ha|(pre & post & ->)].
      * apply Ascii.eqb_eq in Ha as ->. by exists "", s.
      * by exists (String a pre), post.
    + intros ([|b pre] & post & H); simpl in H; injection H as -> ->.
      * left. apply Ascii.eqb_refl.
      * right. by exists pre, post.
Qed.

(** A department name is refused by the create, update and partial-update
    models exactly when it has a '/' somewhere; the partial-update model
    takes [None] for the name. *)
Theorem department_name_validation (n : string) (position : supply Z)
    (code parent_id : supply string) :
  (is_valid (DepartmentCreateRequest.new (Supplied (Some n)) position code parent_id)
     = false <-> exists pre post, n = pre +:+ "/" +:+ post) /\
  (is_valid (DepartmentUpdateRequest.new (Supplied (Some n)) position code parent_id)
     = false <-> exists pre post, n = pre +:+ "/" +:+ post) /\
  (is_valid (DepartmentPartialUpdateRequest.new (Supplied (Some n)) position code
               parent_id)
     = false <-> exists pre post, n = pre +:+ "/" +:+ post) /\
  is_valid (DepartmentPartialUpdateRequest.new (Supplied None) position code parent_id)
    = true.
Proof.
  pose proof (contains_spec "/" n) as Hc.
  unfold DepartmentCreateRequest.new, DepartmentUpdateRequest.new,
    DepartmentPartialUpdateRequest.new.
  repeat split; fields_pass; try reflexivity; intros H.
  all: try (apply Hc; revert H).
  all: try (apply Hc in H; revert H).
  all: unfold DepartmentCreateRequest.validate_name,
         DepartmentUpdateRequest.validate_name, optional,
         DepartmentPartialUpdateRequest.validate_name.
  all: destruct (contains "/"%char n); cbn; try done.
Qed.

(** Every rejection by the discontinue validator carries the format
    message, also when the text is a well-formed date that lies after
    today; and such a date is rejected. *)
Theorem discontinue_rejection_message now v :
  (forall msg,
     DepartmentDiscontinueRequest.validate_discontinued_date now v = Reject msg ->
     msg = "廃止日は YYYY-MM-DD 形式で指定してください") /\
  (forall d, strptime v = Some d -> date_ltb now d = true ->
     DepartmentDiscontinueRequest.validate_discontinued_date now v
     = Reject "廃止日は YYYY-MM-DD 形式で指定してください").
Proof.
  unfold DepartmentDiscontinueRequest.validate_discontinued_date. split.
  - intros msg. destruct (strptime v) as [d|]; [|by intros [= <-]].
    destruct (date_ltb now d); [by intros [= <-]|discriminate].
  - intros d -> ->. reflexivity.
Qed.

Lemma discontinue_rejection_message_witness :
  DepartmentDiscontinueRequest.validate_discontinued_date (mkDate 2025 3 10) "2025-03-11"
  = Reject "廃止日は YYYY-MM-DD 形式で指定してください".
Proof.
  apply (proj2 (discontinue_rejection_message (mkDate 2025 3 10) "2025-03-11")
           (mkDate 2025 3 11)); reflexivity.
Defined.

Lemma passes_required_plain {T} (inj : T -> pyval) (s : supply T) :
  passes (required inj no_validator s) = given s.
Proof. by destruct s as [|[v|]]. Qed.

Lemma passes_required_gender s :
  passes (required PStr DependentCreateRequest.validate_gender s)
  = given_among ["male"; "female"] s.
Proof.
  destruct s as [|[v|]]; try reflexivity. simpl.
  unfold DependentCreateRequest.validate_gender. rewrite orb_false_r.
  by destruct (String.eqb v "male" || String.eqb v "female").
Qed.

Lemma passes_required_live_together s :
  passes (required PStr LiveTogetherType s)
  = given_among ["living_together"; "living_separately"] s.
Proof.
  destruct s as [|[v|]]; try reflexivity. simpl.
  unfold LiveTogetherType. rewrite orb_false_r.
  by destruct (String.eqb v "living_together" || String.eqb v "living_separately").
Qed.

Lemma passes_attachment s :
  passes (optional_model AttachmentParams.new s) = attachment_ok s.
Proof.
  destruct s as [|[[file_name content]|]]; try reflexivity.
  unfold optional_model, nested, attachment_ok. simpl.
  pose proof (is_valid_construct
    [("file_name", required PStr no_validator file_name);
     ("content", required PStr no_validator content)]) as H.
  unfold AttachmentParams.new. simpl AttachmentParams.file_name.
  simpl AttachmentParams.content.
  cbn [forallb snd] in H. rewrite !passes_required_plain, andb_true_r in H.
  rewrite <- H. unfold construct.
  destruct (collect _) as [m [|e errs]]; reflexivity.
Qed.

Lemma passes_address s : passes (optional_model Address.new s) = true.
Proof.
  destruct s as [|[a|]]; try reflexivity.
  unfold optional_model, nested.
  pose proof (is_valid_construct
    [("country_number", optional PStr PNone no_validator (Address.country_number a));
     ("zip_code", optional PStr PNone no_validator (Address.zip_code a));
     ("pref", optional PStr PNone no_validator (Address.pref a));
     ("city", optional PStr PNone no_validator (Address.city a));
     ("street", optional PStr PNone no_validator (Address.street a));
     ("building", optional PStr PNone no_validator (Address.building a));
     ("literal_yomi", optional PStr PNone no_validator (Address.literal_yomi a))]) as H.
  cbn [forallb snd] in H. rewrite !passes_optional_no_validator in H.
  unfold Address.new. by destruct (construct _).
Qed.

Lemma dependent_create_valid (d : Dependent.fields) :
  is_valid (DependentCreateRequest.new d)
  = Dependent.required_given d &&
    given_among ["male"; "female"] (Dependent.gender d) &&
    given_among ["living_together"; "living_separately"] (Dependent.live_together_type d) &&
    attachments_ok d.
Proof.
  unfold DependentCreateRequest.new, Dependent.required_given, attachments_ok.
  rewrite is_valid_construct. cbn [forallb snd].
  rewrite !passes_optional_no_validator, !passes_attachment, passes_address,
    passes_required_gender, passes_required_live_together, !passes_required_plain.
  destruct (Dependent.gender d) as [|[g|]], (Dependent.live_together_type d) as [|[l|]];
    cbn [given given_among]; btauto.
Qed.

Lemma dependent_partial_valid (d : Dependent.fields) :
  is_valid (DependentPartialUpdateRequest.new d)
  = Dependent.required_given d &&
    given_among ["living_together"; "living_separately"] (Dependent.live_together_type d) &&
    attachments_ok d.
Proof.
  unfold DependentPartialUpdateRequest.new, Dependent.required_given, attachments_ok.
  rewrite is_valid_construct. cbn [forallb snd].
  rewrite !passes_optional_no_validator, !passes_attachment, passes_address,
    passes_required_live_together, !passes_required_plain.
  destruct (Dependent.live_together_type d) as [|[l|]];
    cbn [given given_among]; btauto.
Qed.

(** What the dependent models check, and nothing else: the six fields
    without default are supplied, [live_together_type] is a member of its
    enum, every attachment that is supplied carries file_name and content,
    and, in the create and update models only, gender is male or female.
    No date field is parsed. *)
Theorem dependent_models_accept (d : Dependent.fields) :
  is_valid (DependentCreateRequest.new d)
  = Dependent.required_given d &&
    given_among ["male"; "female"] (Dependent.gender d) &&
    given_among ["living_together"; "living_separately"] (Dependent.live_together_type d) &&
    attachments_ok d /\
  is_valid (DependentUpdateRequest.new d) = is_valid (DependentCreateRequest.new d) /\
  is_valid (DependentPartialUpdateRequest.new d)
  = Dependent.required_given d &&
    given_among ["living_together"; "living_separately"] (Dependent.live_together_type d) &&
    attachments_ok d.
Proof.
  split; [apply dependent_create_valid|].
  split; [reflexivity|apply dependent_partial_valid].
Qed.

(** * What a constructed model holds *)

Lemma fields_set_declared fs k :
  k ∈ fields_set (collect fs).1 -> k ∈ fs.*1.
Proof.
  induction fs as [|[k0 r0] fs IH]; simpl.
  - set_solver.
  - destruct (collect fs) as [m errs]. simpl in IH.
    destruct r0 as [v0 [|]|e0]; simpl; set_solver.
Qed.

Lemma collect_field fs k v s :
  NoDup fs.*1 ->
  (k, FieldOk v s) ∈ fs ->
  values (collect fs).1 !! k = Some v /\
  (k ∈ fields_set (collect fs).1 <-> s = true).
Proof.
  induction fs as [|[k0 r0] fs IH]; simpl.
  - intros _ H. by apply elem_of_nil in H.
  - intros Hnd Hin. apply NoDup_cons in Hnd as [Hk0 Hnd].
    apply elem_of_cons in Hin as [[= <- <-]|Hin].
    + pose proof (fields_set_declared fs k) as Hdecl.
      destruct (collect fs) as [m errs]. simpl in *.
      split; [apply lookup_insert_eq|].
      destruct s; [set_solver|].
      split; [|discriminate]. intros Hset. by destruct (Hk0 (Hdecl Hset)).
    + assert (k <> k0) as Hne.
      { intros ->. apply Hk0. apply list_elem_of_fmap. by exists (k0, FieldOk v s). }
      destruct (IH Hnd Hin) as [Hv Hs].
      destruct (collect fs) as [m errs]. simpl in *.
      destruct r0 as [v0 [|]|e0]; simpl.
      * rewrite lookup_insert_ne by done. split; [done|]. rewrite <- Hs. set_solver.
      * rewrite lookup_insert_ne by done. by split.
      * by split.
Qed.

Lemma construct_valid fs m : construct fs = Valid m -> m = (collect fs).1.
Proof.
  unfold construct. destruct (collect fs) as [m' [|e errs]]; [|discriminate].
  by intros [= <-].
Qed.

(** * Further properties of the client *)

(** [__init__] succeeds exactly when SMARTHR_API_KEY is set to a non-empty
    text.  With such a key it returns the client that holds the key, sends
    it as a bearer token with the JSON content type, and whose base URL is
    SMARTHR_API_BASE_URL or, when that is unset, the SmartHR default;
    without it the constructor raises [ValueError]. *)
Theorem init_requires_key (environ : gmap string string) :
  (forall key,
     environ !! "SMARTHR_API_KEY" = Some key -> key <> "" ->
     __init__ environ
     = Return (mk (default "https://app.smarthr.jp/api"
                     (environ !! "SMARTHR_API_BASE_URL"))
                  key
                  {[ "Authorization" := "Bearer " +:+ key;
                     "Content-Type" := "application/json" ]})) /\
  (forall c, __init__ environ = Return c ->
     exists key,
       environ !! "SMARTHR_API_KEY" = Some key /\ key <> "" /\
       api_key c = key /\
       headers c !! "Authorization" = Some ("Bearer " +:+ key) /\
       headers c !! "Content-Type" = Some "application/json" /\
       base_url c
       = default "https://app.smarthr.jp/api" (environ !! "SMARTHR_API_BASE_URL")) /\
  (environ !! "SMARTHR_API_KEY" = None \/ environ !! "SMARTHR_API_KEY" = Some "" ->
   __init__ environ
   = Raise (ValueError "SMARTHR_API_KEY environment variable is not set")).
Proof.
  unfold __init__. split; [|split].
  - intros key -> Hkey. apply String.eqb_neq in Hkey. by rewrite Hkey.
  - intros c. destruct (environ !! "SMARTHR_API_KEY") as [key|]; [|discriminate].
    destruct (String.eqb key "") eqn:E; [discriminate|].
    intros [= <-]. exists key. apply String.eqb_neq in E.
    repeat split; try done.
  - intros [-> | ->]; reflexivity.
Qed.

Lemma init_requires_key_witness :
  __init__ {[ "SMARTHR_API_KEY" := "token" ]} = Return sample_client /\
  __init__ {[ "SMARTHR_API_BASE_URL" := "http://localhost:8080" ]}
  = Raise (ValueError "SMARTHR_API_KEY environment variable is not set").
Proof.
  split.
  - rewrite (proj1 (init_requires_key {[ "SMARTHR_API_KEY" := "token" ]}) "token").
    + vm_compute. reflexivity.
    + reflexivity.
    + discriminate.
  - apply (proj2 (proj2 (init_requires_key
                           {[ "SMARTHR_API_BASE_URL" := "http://localhost:8080" ]}))).
    left. reflexivity.
Defined.

Lemma at_most_one_request_witness :
  (length (sent (invoke sample_client (CallDeleteGrade "3"))
             (answering (mkResponse 500 "" None) (mkDate 2025 3 10))) <= 1)%nat.
Proof.
  apply (at_most_one_request sample_client
           (answering (mkResponse 500 "" None) (mkDate 2025 3 10))
           (CallDeleteGrade "3")).
  discriminate.
Defined.

Lemma http_error_raised_witness :
  result (invoke sample_client (CallGetJobCategory "5"))
    (answering (mkResponse 404 "not found" None) (mkDate 2025 3 10))
  = Raise (HTTPError (mkResponse 404 "not found" None)).
Proof.
  apply (http_error_raised sample_client
           (answering (mkResponse 404 "not found" None) (mkDate 2025 3 10))
           (CallGetJobCategory "5") (mkResponse 404 "not found" None)).
  - discriminate.
  - intros req. reflexivity.
  - reflexivity.
  - discriminate.
Defined.

(** When the transport fails, a method that got as far as sending its
    request raises the transport's error unchanged, having sent that one
    request; nothing is retried. *)
Theorem connection_error_propagates self w i :
  unreachable w ->
  sent (invoke self i) w = [] \/
  (result (invoke self i) w = Raise ConnectionError /\
   length (sent (invoke self i) w) = 1%nat).
Proof.
  intros Hdown. destruct i;
    unfold_methods; run_method; unfold get_today;
    rewrite ?Hdown; cbn [app fst snd]; try (by right); try (by left).
  - (* discontinue_department *)
    repeat (case_match; simplify_eq/=); try (by left).
    all: rewrite ?Hdown in *; simplify_eq/=; by right.
  - (* partial_update_dependent *)
    repeat (case_match; simplify_eq/=); try (by left).
    all: rewrite ?Hdown in *; simplify_eq/=; by right.
Qed.

Lemma connection_error_propagates_witness :
  sent (invoke sample_client (CallGetGrade "3")) (mkWorld (fun _ _ => None) (mkDate 2025 3 10))
    = [] \/
  (result (invoke sample_client (CallGetGrade "3"))
     (mkWorld (fun _ _ => None) (mkDate 2025 3 10)) = Raise ConnectionError /\
   length (sent (invoke sample_client (CallGetGrade "3"))
             (mkWorld (fun _ _ => None) (mkDate 2025 3 10))) = 1%nat).
Proof.
  apply (connection_error_propagates sample_client
           (mkWorld (fun _ _ => None) (mkDate 2025 3 10)) (CallGetGrade "3")).
  intros req. reflexivity.
Defined.

(** A method that ends with [response.json()], directly or through
    [_request], returns the decoded body of a successful response as it
    is. *)
Theorem decoded_body_returned self w i resp v :
  ending_of i <> OtherEnding ->
  first_response w resp ->
  status_code resp <> 204 ->
  is_http_error (status_code resp) = false ->
  json_body resp = Some v ->
  result (invoke self i) w = Return v.
Proof.
  intros Hend Hfirst H204 Herr Hjson.
  apply Z.eqb_neq in H204.
  destruct i; try (by destruct Hend);
    unfold_methods; run_method;
    rewrite ?Hfirst; cbn [app fst snd]; rewrite ?H204, ?Herr, ?Hjson; reflexivity.
Qed.

Lemma decoded_body_returned_witness :
  result (invoke sample_client (CallGetDepartment "12"))
    (answering (mkResponse 200 "" (Some (PDict {[ "id" := PStr "12" ]})))
       (mkDate 2025 3 10))
  = Return (PDict {[ "id" := PStr "12" ]}).
Proof.
  apply (decoded_body_returned sample_client _ (CallGetDepartment "12")
           (mkResponse 200 "" (Some (PDict {[ "id" := PStr "12" ]})))).
  - discriminate.
  - intros req. reflexivity.
  - discriminate.
  - reflexivity.
  - reflexivity.
Defined.

(** A 204 whose empty body does not decode: the methods that go through
    [_request] return the no-content marker, while the methods that call
    [requests] themselves and return [response.json()] raise
    [JSONDecodeError]. *)
Theorem no_content_by_ending self w i resp :
  first_response w resp ->
  status_code resp = 204 ->
  json_body resp = None ->
  (ending_of i = ThroughRequest -> result (invoke self i) w = Return no_content) /\
  (ending_of i = DirectJson -> result (invoke self i) w = Raise JSONDecodeError).
Proof.
  intros Hfirst H204 Hjson.
  split; intros Hend; destruct i; try discriminate Hend;
    unfold_methods; run_method;
    rewrite ?Hfirst; cbn [app fst snd]; rewrite ?H204, ?Hjson; reflexivity.
Qed.

Lemma no_content_by_ending_witness :
  result (invoke sample_client (CallUpdateGrade "3" (mkModel ∅ ∅)))
    (answering (mkResponse 204 "" None) (mkDate 2025 3 10))
  = Raise JSONDecodeError.
Proof.
  apply (no_content_by_ending sample_client
           (answering (mkResponse 204 "" None) (mkDate 2025 3 10))
           (CallUpdateGrade "3" (mkModel ∅ ∅)) (mkResponse 204 "" None)).
  - intros req. reflexivity.
  - reflexivity.
  - reflexivity.
  - reflexivity.
Defined.

(** * The pre-flight check of [partial_update_dependent] *)

Ltac field_here :=
  repeat first [ apply list_elem_of_here | apply list_elem_of_further ].

Lemma given_supplied {T} (s : supply T) : given s = true -> exists v, s = Supplied (Some v).
Proof. destruct s as [|[v|]]; try discriminate. by exists v. Qed.

Lemma live_together_member s :
  given_among ["living_together"; "living_separately"] s = true ->
  s = Supplied (Some "living_together") \/ s = Supplied (Some "living_separately").
Proof.
  destruct s as [|[v|]]; try discriminate. simpl. rewrite orb_false_r.
  intros H.
  apply orb_true_iff in H as [H|H]; apply String.eqb_eq in H as ->; auto.
Qed.

(** The six values [has_required_patch_fields] reads from a validated
    partial-update model are the texts the caller supplied. *)
Lemma partial_update_model_values d m :
  DependentPartialUpdateRequest.new d = Valid m ->
  exists relation_id last_name first_name birth_at gender live_together_type,
    Dependent.relation_id d = Supplied (Some relation_id) /\
    Dependent.last_name d = Supplied (Some last_name) /\
    Dependent.first_name d = Supplied (Some first_name) /\
    Dependent.birth_at d = Supplied (Some birth_at) /\
    Dependent.gender d = Supplied (Some gender) /\
    py_truthy (PStr live_together_type) = true /\
    values m !! "relation_id" = Some (PStr relation_id) /\
    values m !! "last_name" = Some (PStr last_name) /\
    values m !! "first_name" = Some (PStr first_name) /\
    values m !! "birth_at" = Some (PStr birth_at) /\
    values m !! "gender" = Some (PStr gender) /\
    values m !! "live_together_type" = Some (PStr live_together_type).
Proof.
  intros Hnew.
  assert (is_valid (DependentPartialUpdateRequest.new d) = true) as Hvalid
    by (by rewrite Hnew).
  rewrite dependent_partial_valid in Hvalid.
  unfold Dependent.required_given in Hvalid.
  rewrite !andb_true_iff in Hvalid.
  destruct Hvalid as [[[[[[[H1 H2] H3] H4] H5] _] H6] _].
  apply given_supplied in H1 as [relation_id H1], H2 as [last_name H2],
    H3 as [first_name H3], H4 as [birth_at H4], H5 as [gender H5].
  unfold DependentPartialUpdateRequest.new in Hnew.
  apply construct_valid in Hnew. subst m.
  rewrite H1, H2, H3, H4, H5.
  apply live_together_member in H6 as [H6|H6]; rewrite H6;
    [exists relation_id, last_name, first_name, birth_at, gender, "living_together"
    |exists relation_id, last_name, first_name, birth_at, gender, "living_separately"].
  all: repeat (split; [done|]).
  all: repeat split.
  all: refine (proj1 (collect_field _ _ _ true _ _));
    [ apply (bool_decide_unpack _); vm_compute; reflexivity | field_here ].
Qed.

Lemma has_required_on_valid d m :
  DependentPartialUpdateRequest.new d = Valid m ->
  DependentPartialUpdateRequest.has_required_patch_fields m
  = negb (given_empty (Dependent.relation_id d) || given_empty (Dependent.last_name d) ||
          given_empty (Dependent.first_name d) || given_empty (Dependent.birth_at d) ||
          given_empty (Dependent.gender d)).
Proof.
  intros Hnew.
  destruct (partial_update_model_values d m Hnew)
    as (relation_id & last_name & first_name & birth_at & gender & ltt &
        -> & -> & -> & -> & -> & Hltt & V1 & V2 & V3 & V4 & V5 & V6).
  unfold DependentPartialUpdateRequest.has_required_patch_fields.
  cbn [forallb]. rewrite V1, V2, V3, V4, V5, V6. cbn [default from_option id].
  rewrite Hltt. cbn [py_truthy given_empty]. btauto.
Qed.

(** On a validated partial-update model the pre-flight check fails exactly
    when relation_id, last_name, first_name, birth_at or gender was
    supplied as the empty text; the method then raises [ValueError] and
    sends nothing. *)
Theorem partial_update_dependent_preflight self w crew_id dependent_id d m :
  DependentPartialUpdateRequest.new d = Valid m ->
  DependentPartialUpdateRequest.has_required_patch_fields m
  = negb (given_empty (Dependent.relation_id d) || given_empty (Dependent.last_name d) ||
          given_empty (Dependent.first_name d) || given_empty (Dependent.birth_at d) ||
          given_empty (Dependent.gender d)) /\
  (DependentPartialUpdateRequest.has_required_patch_fields m = false ->
   sent (partial_update_dependent self crew_id dependent_id m) w = [] /\
   result (partial_update_dependent self crew_id dependent_id m) w
   = Raise (ValueError
       "家族情報の部分更新には、姓・名・性別・生年月日・続柄ID・同居区分が必須です。")).
Proof.
  intros Hnew. split; [by apply has_required_on_valid|].
  intros Hcheck. unfold partial_update_dependent. rewrite Hcheck.
  split; reflexivity.
Qed.

Lemma partial_update_dependent_preflight_witness :
  exists m,
    DependentPartialUpdateRequest.new
      (Dependent.minimal "r1" "" "Hanako" "2001-02-03" "female" "living_together")
    = Valid m /\
    sent (partial_update_dependent sample_client "7" "9" m)
      (answering (mkResponse 200 "" None) (mkDate 2025 3 10)) = [].
Proof.
  destruct (DependentPartialUpdateRequest.new
              (Dependent.minimal "r1" "" "Hanako" "2001-02-03" "female"
                 "living_together")) as [m|errs] eqn:Hm;
    [|vm_compute in Hm; discriminate].
  exists m. split; [reflexivity|].
  pose proof (partial_update_dependent_preflight sample_client
                (answering (mkResponse 200 "" None) (mkDate 2025 3 10)) "7" "9" _ m Hm)
    as [Hcheck Hstop].
  apply Hstop. rewrite Hcheck. reflexivity.
Defined.

(** * [discontinue_department], the other outcomes *)

(** An ASCII date text that does not parse stops [discontinue_department]
    with a [ValueError] before anything is sent.  For an accepted date, a
    response that is not a 4xx or 5xx is never decoded: the method returns
    the status it received with a fixed message. *)
Theorem discontinue_department_outcomes self w department_id discontinued_date :
  (is_ascii discontinued_date = true ->
   strptime discontinued_date = None ->
   (exists msg, result (discontinue_department self department_id discontinued_date) w
                = Raise (ValueError msg)) /\
   sent (discontinue_department self department_id discontinued_date) w = []) /\
  (forall d resp,
     strptime discontinued_date = Some d ->
     date_ltb d (today w) = true ->
     first_response w resp ->
     is_http_error (status_code resp) = false ->
     result (discontinue_department self department_id discontinued_date) w
     = Return (PDict {[ "status" := PInt (status_code resp);
                        "message" := PStr "Department discontinued successfully" ]})).
Proof.
  split.
  - intros _ Hparse.
    unfold result, sent, discontinue_department, bind, get_today, ret, raise.
    rewrite Hparse. cbn. eauto.
  - intros d resp Hparse Hcmp Hfirst Herr.
    unfold result, discontinue_department, bind, get_today, ret, raise.
    rewrite Hparse, Hcmp. cbn [negb fst snd].
    unfold DepartmentDiscontinueRequest.new, construct, collect, required,
      DepartmentDiscontinueRequest.validate_discontinued_date.
    rewrite Hparse, (date_ltb_asym _ _ Hcmp).
    cbn [at_field values fields_set].
    unfold http, send, raise_for_status, ret, raise.
    rewrite Hfirst. cbn [app fst snd]. by rewrite Herr.
Qed.

Lemma discontinue_department_outcomes_witness :
  sent (discontinue_department sample_client "42" "2025/03/09")
    (answering (mkResponse 204 "" None) (mkDate 2025 3 10)) = [] /\
  result (discontinue_department sample_client "42" "2025-03-09")
    (answering (mkResponse 204 "" None) (mkDate 2025 3 10))
  = Return (PDict {[ "status" := PInt 204;
                     "message" := PStr "Department discontinued successfully" ]}).
Proof.
  split.
  - apply (proj1 (discontinue_department_outcomes sample_client
                    (answering (mkResponse 204 "" None) (mkDate 2025 3 10))
                    "42" "2025/03/09")); reflexivity.
  - apply (proj2 (discontinue_department_outcomes sample_client
                    (answering (mkResponse 204 "" None) (mkDate 2025 3 10))
                    "42" "2025-03-09")
             (mkDate 2025 3 9) (mkResponse 204 "" None)).
    + reflexivity.
    + reflexivity.
    + intros req. reflexivity.
    + reflexivity.
Defined.

(** * Query parameters *)

Ltac one_get :=
  run_method;
  match goal with
  | |- context [remote ?w [] ?r] => destruct (remote w [] r) as [resp|]
  end;
  cbn [app fst snd]; [|reflexivity];
  repeat (case_match; simplify_eq/=); reflexivity.

Lemma set_if_lookup_eq key value (params : gmap string atom) k :
  set_if key value params !! k
  = if String.eqb key k
    then (if truthy value then Some value else params !! k)
    else params !! k.
Proof.
  unfold set_if. destruct (String.eqb_spec key k) as [->|Hne].
  - destruct (truthy value); [apply lookup_insert_eq|done].
  - destruct (truthy value); [by rewrite lookup_insert_ne|done].
Qed.

Lemma paging_lookup_eq (page per_page : atom) k :
  ({[ "page" := page; "per_page" := per_page ]} : gmap string atom) !! k
  = if String.eqb "page" k then Some page
    else if String.eqb "per_page" k then Some per_page else None.
Proof.
  destruct (String.eqb_spec "page" k) as [<-|Hne]; [apply lookup_insert_eq|].
  rewrite lookup_insert_ne by done.
  destruct (String.eqb_spec "per_page" k) as [<-|Hne'];
    [apply lookup_singleton_eq | by apply lookup_singleton_ne].
Qed.

Ltac by_key k :=
  repeat match goal with
         | |- context [String.eqb ?a k] =>
             destruct (String.eqb_spec a k) as [<-|?]; cbv iota
         end;
  vm_compute; reflexivity.

Lemma expected_no_empty page per_page filters (kwargs : gmap string atom) k v :
  expected_query page per_page filters kwargs k = Some v ->
  kwargs !! k = Some v \/ (k = "page" /\ v = page) \/ (k = "per_page" /\ v = per_page) \/
  truthy v = true.
Proof.
  unfold expected_query. destruct (kwargs !! k) as [x|]; [by left|].
  destruct (String.eqb_spec "page" k) as [<-|?]; [intros [= <-]; auto|].
  destruct (String.eqb_spec "per_page" k) as [<-|?]; [intros [= <-]; auto|].
  destruct (assoc k filters) as [value|]; [|discriminate].
  destruct (truthy value) eqn:E; [|discriminate]. intros [= <-]. auto.
Qed.

(** The list methods send one GET of their listing whose query is exactly
    this: page and per_page as given, each optional filter under its own
    name when, and only when, it is truthy, and (in [list_crews]) the extra
    keywords on top.  So besides page, per_page and the extra keywords no
    entry of the query is [None], empty or zero. *)
Theorem no_empty_filter self w page per_page code sort emp_code emp_type
    employment_type_id emp_status gender entered_at_from entered_at_to
    resigned_at_from resigned_at_to department_id (kwargs : gmap string atom) :
  (exists params,
     sent (list_departments self page per_page code sort) w
       = [mkRequest GET (base_url self +:+ "/v1/departments") (Some params) None
            (Some (headers self))] /\
     forall k, params !! k
               = expected_query page per_page [("code", code); ("sort", sort)] ∅ k) /\
  (exists params,
     sent (list_job_titles self page per_page sort) w
       = [mkRequest GET (base_url self +:+ "/v1/job_titles") (Some params) None
            (Some (headers self))] /\
     forall k, params !! k = expected_query page per_page [("sort", sort)] ∅ k) /\
  (exists params,
     sent (list_grades self page per_page sort) w
       = [mkRequest GET (base_url self +:+ "/v1/grades") (Some params) None
            (Some (headers self))] /\
     forall k, params !! k = expected_query page per_page [("sort", sort)] ∅ k) /\
  (exists params,
     sent (list_job_categories self page per_page sort) w
       = [mkRequest GET (base_url self +:+ "/v1/job_categories") (Some params) None
            (Some (headers self))] /\
     forall k, params !! k = expected_query page per_page [("sort", sort)] ∅ k) /\
  (exists params,
     sent (list_crews self page per_page emp_code emp_type employment_type_id
             emp_status gender entered_at_from entered_at_to resigned_at_from
             resigned_at_to department_id kwargs) w
       = [mkRequest GET (base_url self +:+ "/v1/crews") (Some params) None
            (Some (headers self))] /\
     forall k, params !! k
               = expected_query page per_page
                   [("emp_code", emp_code); ("emp_type", emp_type);
                    ("employment_type_id", employment_type_id);
                    ("emp_status", emp_status); ("gender", gender);
                    ("entered_at_from", entered_at_from);
                    ("entered_at_to", entered_at_to);
                    ("resigned_at_from", resigned_at_from);
                    ("resigned_at_to", resigned_at_to);
                    ("department_id", department_id)] kwargs k) /\
  (forall filters k v,
     expected_query page per_page filters kwargs k = Some v ->
     kwargs !! k = Some v \/ (k = "page" /\ v = page) \/
     (k = "per_page" /\ v = per_page) \/ truthy v = true).
Proof.
  split; [|split; [|split; [|split; [|split]]]].
  - eexists. split; [unfold list_departments; one_get|].
    intros k. unfold expected_query. rewrite lookup_empty.
    rewrite !set_if_lookup_eq, paging_lookup_eq. cbn [assoc]. by_key k.
  - eexists. split; [unfold list_job_titles; one_get|].
    intros k. unfold expected_query. rewrite lookup_empty.
    rewrite !set_if_lookup_eq, paging_lookup_eq. cbn [assoc]. by_key k.
  - eexists. split; [unfold list_grades; one_get|].
    intros k. unfold expected_query. rewrite lookup_empty.
    rewrite !set_if_lookup_eq, paging_lookup_eq. cbn [assoc]. by_key k.
  - eexists. split; [unfold list_job_categories; one_get|].
    intros k. unfold expected_query. rewrite lookup_empty.
    rewrite !set_if_lookup_eq, paging_lookup_eq. cbn [assoc]. by_key k.
  - eexists. split; [unfold list_crews; one_get|].
    intros k. unfold expected_query. rewrite lookup_union.
    destruct (kwargs !! k) as [x|].
    + by destruct (set_if _ _ _ !! k).
    + rewrite (left_id None _).
      rewrite !set_if_lookup_eq, paging_lookup_eq. cbn [assoc]. by_key k.
  - intros filters k v. apply expected_no_empty.
Qed.

(** * Keywords a list method does not declare *)

Lemma bind_keywords_unknown sg kws b k v :
  var_keyword sg = false ->
  (k, v) ∈ kws ->
  k ∉ names sg ->
  exists msg, bind_keywords sg kws b = Raise (TypeError msg).
Proof.
  intros Hvar Hin Hk. revert b.
  induction kws as [|[k0 v0] kws IH]; intros b; simpl.
  - by apply elem_of_nil in Hin.
  - case_bool_decide as Hk0.
    + destruct (args b !! k0); [eauto|].
      apply IH. apply elem_of_cons in Hin as [[= -> ->]|Hin]; [done|exact Hin].
    + rewrite Hvar. eauto.
Qed.

(** A list method without [**kwargs] refuses a keyword it does not
    declare, and a keyword named [self]: the call raises [TypeError] and
    sends nothing. *)
Theorem unknown_keyword_refused self w m c k v :
  var_keyword (signature_of m) = false ->
  (k, v) ∈ keywords c ->
  k ∉ names (signature_of m) \/ k = "self" ->
  (exists msg, result (call_of self m c) w = Raise (TypeError msg)) /\
  sent (call_of self m c) w = [].
Proof.
  intros Hvar Hin Hk.
  assert (exists msg, bind_args (signature_of m) (method_call c) = Raise (TypeError msg))
    as [msg Hbind].
  { destruct Hk as [Hk| ->].
    - unfold bind_args, method_call. cbn [keywords positional].
      destruct (bind_positional _ _ _) as [a|e] eqn:E.
      + destruct (bind_keywords_unknown _ _ (mkBound a ∅) _ _ Hvar Hin Hk) as [msg ->].
        eauto.
      + apply bind_positional_raises in E as [msg ->]. eauto.
    - apply (bind_args_twice _ _ "self").
      + destruct m; simpl; set_solver.
      + apply list_elem_of_fmap. by exists ("self", v). }
  destruct m; try discriminate Hvar; simpl in Hbind;
    unfold call_of, call_search_crews, call_list_departments,
      call_list_employment_types, call_list_job_titles, call_list_grades,
      call_list_job_categories, call_list_relations, result, sent, bind, lift;
    rewrite Hbind; eauto.
Qed.

Lemma unknown_keyword_refused_witness :
  sent (call_of sample_client ListDepartments
          (mkCall [] [("page", AInt 2); ("name", AStr "Sales")]))
    (answering (mkResponse 200 "" None) (mkDate 2025 3 10)) = [].
Proof.
  apply (unknown_keyword_refused sample_client
           (answering (mkResponse 200 "" None) (mkDate 2025 3 10))
           ListDepartments (mkCall [] [("page", AInt 2); ("name", AStr "Sales")])
           "name" (AStr "Sales")).
  - reflexivity.
  - simpl. set_solver.
  - left. vm_compute. set_solver.
Defined.

(** * What the payloads hold *)

Lemma dict_entries exclude_unset exclude_none m k :
  entries (payload exclude_unset exclude_none m) !! k
  = match values m !! k with
    | Some x =>
        if keeps exclude_unset exclude_none (bool_decide (k ∈ fields_set m)) x
        then Some (get_value exclude_unset exclude_none x)
        else None
    | None => None
    end.
Proof.
  unfold payload, dict, to_pyval, entries. cbn [get_value].
  rewrite lookup_merge.
  destruct (values m !! k) as [x|]; simpl.
  - assert ((match mapset_car (fields_set m) !! k with Some _ => true | None => false end)
            = bool_decide (k ∈ fields_set m)) as ->; [|done].
    destruct (mapset_car (fields_set m) !! k) as [[]|] eqn:E.
    + symmetry. apply bool_decide_eq_true_2. exact E.
    + symmetry. apply bool_decide_eq_false_2. intros Hin.
      change (mapset_car (fields_set m) !! k = Some ()) in Hin. congruence.
  - by destruct (mapset_car (fields_set m) !! k).
Qed.

(** The three serialisation policies of the client, method by method.
    The create and partial-update methods, [update_crew], [update_grade]
    and [update_dependent] send [dict(exclude_unset=True,
    exclude_none=True)]: exactly the fields the caller set to something
    other than [None].  [create_dependent] sends [dict(exclude_none=True)]:
    every field that is not [None], set or not.  [update_department],
    [update_job_title] and [update_employment_type] send the plain dict:
    every field of the model. *)
Theorem payload_policies self w (id crew_id : string) (m : model) (k : string) :
  (req_json <$> sent (create_crew self m) w = [payload true true m] /\
   req_json <$> sent (update_crew self id m) w = [payload true true m] /\
   req_json <$> sent (create_department self m) w = [payload true true m] /\
   req_json <$> sent (partial_update_department self id m) w = [payload true true m] /\
   req_json <$> sent (create_job_title self m) w = [payload true true m] /\
   req_json <$> sent (partial_update_job_title self id m) w = [payload true true m] /\
   req_json <$> sent (create_employment_type self m) w = [payload true true m] /\
   req_json <$> sent (partial_update_employment_type self id m) w
     = [payload true true m] /\
   req_json <$> sent (create_grade self m) w = [payload true true m] /\
   req_json <$> sent (update_grade self id m) w = [payload true true m] /\
   req_json <$> sent (partial_update_grade self id m) w = [payload true true m] /\
   req_json <$> sent (create_job_category self m) w = [payload true true m] /\
   req_json <$> sent (update_dependent self crew_id id m) w = [payload true true m] /\
   (DependentPartialUpdateRequest.has_required_patch_fields m = true ->
    req_json <$> sent (partial_update_dependent self crew_id id m) w
      = [payload true true m])) /\
  req_json <$> sent (create_dependent self crew_id m) w = [payload false true m] /\
  (req_json <$> sent (update_department self id m) w = [payload false false m] /\
   req_json <$> sent (update_job_title self id m) w = [payload false false m] /\
   req_json <$> sent (update_employment_type self id m) w = [payload false false m]) /\
  (is_Some (entries (payload true true m) !! k) <->
   k ∈ fields_set m /\ exists x, values m !! k = Some x /\ x <> PNone) /\
  (is_Some (entries (payload false true m) !! k) <->
   exists x, values m !! k = Some x /\ x <> PNone) /\
  (is_Some (entries (payload false false m) !! k) <-> is_Some (values m !! k)).
Proof.
  split; [|split; [|split]].
  - repeat split.
    all: try (intros Hcheck; unfold partial_update_dependent; rewrite Hcheck;
              cbn [negb]).
    all: unfold_methods; one_get.
  - unfold create_dependent. one_get.
  - repeat split; unfold_methods; one_get.
  - rewrite !dict_entries. unfold keeps.
    destruct (values m !! k) as [x|]; simpl.
    + destruct x; simpl; case_bool_decide; simpl;
        (split; [|split]); split; try (intros [? ?]); naive_solver.
    + (split; [|split]); split; try (intros [? ?]); naive_solver.
Qed.

Lemma payload_policies_witness :
  req_json <$>
    sent (partial_update_dependent sample_client "7" "9"
            (mkModel {[ "last_name" := PStr "Yamada"; "first_name" := PStr "Hanako";
                        "birth_at" := PStr "2001-02-03"; "gender" := PStr "female";
                        "live_together_type" := PStr "living_together";
                        "relation_id" := PStr "r1"; "job" := PNone ]}
                     {[ "last_name"; "job" ]}))
      (answering (mkResponse 200 "" (Some (PDict ∅))) (mkDate 2025 3 10))
  = [Some (PDict {[ "last_name" := PStr "Yamada" ]})].
Proof.
  rewrite (proj2 (proj2 (proj2 (proj2 (proj2 (proj2 (proj2 (proj2 (proj2 (proj2
            (proj2 (proj2 (proj2 (proj1
              (payload_policies sample_client
                 (answering (mkResponse 200 "" (Some (PDict ∅))) (mkDate 2025 3 10))
                 "9" "7"
                 (mkModel {[ "last_name" := PStr "Yamada";
                             "first_name" := PStr "Hanako";
                             "birth_at" := PStr "2001-02-03";
                             "gender" := PStr "female";
                             "live_together_type" := PStr "living_together";
                             "relation_id" := PStr "r1"; "job" := PNone ]}
                          {[ "last_name"; "job" ]})
                 "job"))))))))))))))).
  - vm_compute. reflexivity.
  - vm_compute. reflexivity.
Defined.

(** * Defaults of the dependent models on the wire *)

Lemma create_dependent_json self w crew_id m :
  req_json <$> sent (create_dependent self crew_id m) w = [payload false true m].
Proof. unfold create_dependent. one_get. Qed.

Lemma update_dependent_json self w crew_id dependent_id m :
  req_json <$> sent (update_dependent self crew_id dependent_id m) w
  = [payload true true m].
Proof. unfold update_dependent. one_get. Qed.

(** A dependent built by the create model without
    social_insurance_support_type and tax_law_support_type carries the
    default "supported" for both.  [create_dependent] serialises with
    [exclude_none=True] only, so both defaults are sent; [update_dependent]
    also excludes unset fields, so it sends neither. *)
Theorem dependent_support_defaults self w crew_id dependent_id d m :
  DependentCreateRequest.new d = Valid m ->
  Dependent.social_insurance_support_type d = Omitted ->
  Dependent.tax_law_support_type d = Omitted ->
  (exists body,
     req_json <$> sent (create_dependent self crew_id m) w = [body] /\
     entries body !! "social_insurance_support_type" = Some (PStr "supported") /\
     entries body !! "tax_law_support_type" = Some (PStr "supported")) /\
  (exists body,
     req_json <$> sent (update_dependent self crew_id dependent_id m) w = [body] /\
     entries body !! "social_insurance_support_type" = None /\
     entries body !! "tax_law_support_type" = None).
Proof.
  intros Hnew Hsoc Htax.
  unfold DependentCreateRequest.new in Hnew.
  apply construct_valid in Hnew. rewrite Hsoc, Htax in Hnew.
  assert (values m !! "social_insurance_support_type" = Some (PStr "supported") /\
          ("social_insurance_support_type" ∈ fields_set m <-> false = true)) as [V1 S1].
  { subst m. apply collect_field;
      [ apply (bool_decide_unpack _); vm_compute; reflexivity | field_here ]. }
  assert (values m !! "tax_law_support_type" = Some (PStr "supported") /\
          ("tax_law_support_type" ∈ fields_set m <-> false = true)) as [V2 S2].
  { subst m. apply collect_field;
      [ apply (bool_decide_unpack _); vm_compute; reflexivity | field_here ]. }
  clear Hnew. split.
  - exists (payload false true m). split; [apply create_dependent_json|].
    rewrite !dict_entries, V1, V2. done.
  - exists (payload true true m). split; [apply update_dependent_json|].
    rewrite !dict_entries, V1, V2. unfold keeps.
    rewrite !bool_decide_eq_false_2; [done| |]; intros Hin.
    + by apply S2 in Hin.
    + by apply S1 in Hin.
Qed.

Lemma dependent_support_defaults_witness :
  exists m,
    DependentCreateRequest.new
      (Dependent.minimal "r1" "Yamada" "Hanako" "2001-02-03" "female" "living_together")
    = Valid m /\
    exists body,
      req_json <$> sent (create_dependent sample_client "7" m)
                     (answering (mkResponse 201 "" None) (mkDate 2025 3 10)) = [body] /\
      entries body !! "tax_law_support_type" = Some (PStr "supported").
Proof.
  destruct (DependentCreateRequest.new
              (Dependent.minimal "r1" "Yamada" "Hanako" "2001-02-03" "female"
                 "living_together")) as [m|errs] eqn:Hm;
    [|vm_compute in Hm; discriminate].
  exists m. split; [reflexivity|].
  destruct (dependent_support_defaults sample_client
              (answering (mkResponse 201 "" None) (mkDate 2025 3 10)) "7" "9" _ m Hm
              eq_refl eq_refl) as [(body & Hsent & _ & Htax) _].
  exists body. by split.
Defined.

(** * The tool layer *)

Import Server.

Lemma json_methods_send_once self w i :
  ending_of i <> OtherEnding -> length (sent (invoke self i) w) = 1%nat.
Proof.
  intros Hend. destruct i; try (by destruct Hend);
    unfold_methods; run_method;
    repeat (case_match; simplify_eq/=); reflexivity.
Qed.

Lemma instantiate_then_send v (k : model -> M pyval) w :
  (forall m, length (sent (k m) w) = 1%nat) ->
  length (sent (m <- instantiate v;; k m) w) = if is_valid v then 1%nat else 0%nat.
Proof.
  intros Hk. destruct v as [m|errs]; simpl; [|reflexivity].
  specialize (Hk m). unfold sent, bind, instantiate, ret in *. exact Hk.
Qed.

Lemma instantiate_invalid v (k : model -> M pyval) w :
  is_valid v = false ->
  exists errs, result (m <- instantiate v;; k m) w = Raise (ValidationError errs).
Proof. destruct v as [m|errs]; [discriminate|]. intros _. by exists errs. Qed.

Ltac tool_sends i :=
  rewrite instantiate_then_send;
    [| intros m; apply (json_methods_send_once _ _ (i m)); discriminate ].

(** The tools validate before they send: a department name with a '/' or
    a rank outside [1, 99999] ends the tool with nothing sent, and every
    other input sends exactly one request. *)
Theorem tools_validate_before_sending smarthr_client w (id name : string) (rank : Z)
    (position : option Z) (code parent_id : option string)
    (opt_name : option string) (opt_rank : option Z) :
  length (sent (smarthr_create_department smarthr_client name position code parent_id) w)
    = (if contains "/" name then 0%nat else 1%nat) /\
  length (sent (smarthr_update_department smarthr_client id name position code
                  parent_id) w)
    = (if contains "/" name then 0%nat else 1%nat) /\
  length (sent (smarthr_partial_update_department smarthr_client id opt_name position
                  code parent_id) w)
    = (if from_option (contains "/") false opt_name then 0%nat else 1%nat) /\
  length (sent (smarthr_create_job_title smarthr_client name rank code) w)
    = (if (rank <? 1) || (rank >? 99999) then 0%nat else 1%nat) /\
  length (sent (smarthr_update_job_title smarthr_client id name rank) w)
    = (if (rank <? 1) || (rank >? 99999) then 0%nat else 1%nat) /\
  length (sent (smarthr_partial_update_job_title smarthr_client id opt_name opt_rank
                  code) w)
    = (if from_option (fun r => (r <? 1) || (r >? 99999)) false opt_rank
       then 0%nat else 1%nat) /\
  length (sent (smarthr_create_grade smarthr_client name rank) w)
    = (if (rank <? 1) || (rank >? 99999) then 0%nat else 1%nat) /\
  length (sent (smarthr_update_grade smarthr_client id name rank) w)
    = (if (rank <? 1) || (rank >? 99999) then 0%nat else 1%nat) /\
  length (sent (smarthr_partial_update_grade smarthr_client id opt_name opt_rank) w)
    = (if from_option (fun r => (r <? 1) || (r >? 99999)) false opt_rank
       then 0%nat else 1%nat).
Proof.
  repeat split.
  - unfold smarthr_create_department. tool_sends CallCreateDepartment.
    unfold DepartmentCreateRequest.new. fields_pass.
    unfold DepartmentCreateRequest.validate_name. by destruct (contains "/"%char name).
  - unfold smarthr_update_department. tool_sends (CallUpdateDepartment id).
    unfold DepartmentUpdateRequest.new. fields_pass.
    unfold DepartmentUpdateRequest.validate_name. by destruct (contains "/"%char name).
  - unfold smarthr_partial_update_department.
    tool_sends (CallPartialUpdateDepartment id).
    unfold DepartmentPartialUpdateRequest.new. fields_pass.
    unfold optional, DepartmentPartialUpdateRequest.validate_name.
    destruct opt_name as [n|]; [|reflexivity]. simpl.
    by destruct (contains "/"%char n).
  - unfold smarthr_create_job_title. tool_sends CallCreateJobTitle.
    unfold JobTitleCreateRequest.new. fields_pass.
    unfold JobTitleCreateRequest.validate_rank.
    by destruct ((rank <? 1) || (rank >? 99999)).
  - unfold smarthr_update_job_title. tool_sends (CallUpdateJobTitle id).
    unfold JobTitleUpdateRequest.new. fields_pass.
    unfold JobTitleUpdateRequest.validate_rank.
    by destruct ((rank <? 1) || (rank >? 99999)).
  - unfold smarthr_partial_update_job_title.
    tool_sends (CallPartialUpdateJobTitle id).
    unfold JobTitlePartialUpdateRequest.new. fields_pass.
    unfold optional, JobTitlePartialUpdateRequest.validate_rank.
    destruct opt_rank as [r|]; [|reflexivity]. simpl.
    by destruct ((r <? 1) || (r >? 99999)).
  - unfold smarthr_create_grade. tool_sends CallCreateGrade.
    unfold GradeCreateRequest.new. fields_pass.
    unfold GradeCreateRequest.validate_rank.
    by destruct ((rank <? 1) || (rank >? 99999)).
  - unfold smarthr_update_grade. tool_sends (CallUpdateGrade id).
    unfold GradeUpdateRequest.new. fields_pass.
    unfold GradeUpdateRequest.validate_rank.
    by destruct ((rank <? 1) || (rank >? 99999)).
  - unfold smarthr_partial_update_grade. tool_sends (CallPartialUpdateGrade id).
    unfold GradePartialUpdateRequest.new. fields_pass.
    unfold optional, GradePartialUpdateRequest.validate_rank.
    destruct opt_rank as [r|]; [|reflexivity]. simpl.
    by destruct ((r <? 1) || (r >? 99999)).
Qed.

Lemma partial_department_model name position code parent_id :
  from_option (contains "/") false name = false ->
  exists m,
    DepartmentPartialUpdateRequest.new (Supplied name) (Supplied position)
      (Supplied code) (Supplied parent_id) = Valid m /\
    payload true true m
    = Some (PDict (present "name" PStr name ∪ present "position" PInt position ∪
                   present "code" PStr code ∪ present "parent_id" PStr parent_id)).
Proof.
  intros Hname.
  unfold DepartmentPartialUpdateRequest.new, construct, collect, optional,
    DepartmentPartialUpdateRequest.validate_name.
  destruct name as [n|]; simpl in Hname; rewrite ?Hname;
    destruct position, code, parent_id;
    (eexists; split; [reflexivity|]); vm_compute; reflexivity.
Qed.

Lemma update_department_model name position code parent_id :
  contains "/" name = false ->
  exists m,
    DepartmentUpdateRequest.new (Supplied (Some name)) (Supplied position)
      (Supplied code) (Supplied parent_id) = Valid m /\
    payload false false m
    = Some (PDict {[ "name" := PStr name;
                     "position" := from_option PInt PNone position;
                     "code" := from_option PStr PNone code;
                     "parent_id" := from_option PStr PNone parent_id ]}).
Proof.
  intros Hname.
  unfold DepartmentUpdateRequest.new, construct, collect, required, optional,
    DepartmentUpdateRequest.validate_name.
  rewrite Hname.
  destruct position, code, parent_id;
    (eexists; split; [reflexivity|]); vm_compute; reflexivity.
Qed.

(** The department tools and the two update policies.  The partial-update
    tool sends one PATCH whose body holds exactly the arguments that are
    not [None] (an empty object when all are [None]); the update tool
    sends one PUT whose body always holds the four fields, with [null] for
    an argument that is [None]. *)
Theorem department_update_bodies smarthr_client w department_id name opt_name
    position code parent_id :
  (from_option (contains "/") false opt_name = false ->
   sent (smarthr_partial_update_department smarthr_client department_id opt_name
           position code parent_id) w
   = [mkRequest PATCH (base_url smarthr_client +:+ "/v1/departments/" +:+ department_id)
        None
        (Some (PDict (present "name" PStr opt_name ∪ present "position" PInt position ∪
                      present "code" PStr code ∪ present "parent_id" PStr parent_id)))
        (Some (headers smarthr_client))]) /\
  (contains "/" name = false ->
   sent (smarthr_update_department smarthr_client department_id name position code
           parent_id) w
   = [mkRequest PUT (base_url smarthr_client +:+ "/v1/departments/" +:+ department_id)
        None
        (Some (PDict {[ "name" := PStr name;
                        "position" := from_option PInt PNone position;
                        "code" := from_option PStr PNone code;
                        "parent_id" := from_option PStr PNone parent_id ]}))
        (Some (headers smarthr_client))]).
Proof.
  split; intros Hname.
  - destruct (partial_department_model opt_name position code parent_id Hname)
      as (m & Hm & Hbody).
    unfold smarthr_partial_update_department. rewrite Hm.
    unfold partial_update_department, sent, bind, instantiate, ret.
    rewrite Hbody. run_method.
    destruct (remote w [] _) as [resp|]; [|reflexivity].
    cbn [app fst snd]. repeat (case_match; simplify_eq/=); reflexivity.
  - destruct (update_department_model name position code parent_id Hname)
      as (m & Hm & Hbody).
    unfold smarthr_update_department. rewrite Hm.
    unfold update_department, sent, bind, instantiate, ret.
    rewrite Hbody. run_method.
    destruct (remote w [] _) as [resp|]; [|reflexivity].
    cbn [app fst snd]. repeat (case_match; simplify_eq/=); reflexivity.
Qed.

Lemma department_update_bodies_witness :
  sent (smarthr_partial_update_department sample_client "12" None None (Some "D-1") None)
    (answering (mkResponse 200 "" (Some (PDict ∅))) (mkDate 2025 3 10))
  = [mkRequest PATCH "https://app.smarthr.jp/api/v1/departments/12" None
       (Some (PDict {[ "code" := PStr "D-1" ]})) (Some (headers sample_client))].
Proof.
  rewrite (proj1 (department_update_bodies sample_client
                    (answering (mkResponse 200 "" (Some (PDict ∅))) (mkDate 2025 3 10))
                    "12" "" None None (Some "D-1") None)).
  - vm_compute. reflexivity.
  - reflexivity.
Defined.

(** [smarthr_list_relations] reads the environment on every call: without
    a key it raises [ValueError] and sends nothing; with a key it sends one
    GET of /v1/dependent_relations under the configured base URL, with the
    page and per_page it was given. *)
Theorem list_relations_tool (environ : gmap string string) w page per_page :
  (environ !! "SMARTHR_API_KEY" = None \/ environ !! "SMARTHR_API_KEY" = Some "" ->
   result (smarthr_list_relations environ page per_page) w
     = Raise (ValueError "SMARTHR_API_KEY environment variable is not set") /\
   sent (smarthr_list_relations environ page per_page) w = []) /\
  (forall key,
     environ !! "SMARTHR_API_KEY" = Some key -> key <> "" ->
     sent (smarthr_list_relations environ page per_page) w
     = [mkRequest GET
          (default "https://app.smarthr.jp/api" (environ !! "SMARTHR_API_BASE_URL")
             +:+ "/v1/dependent_relations")
          (Some {[ "page" := page; "per_page" := per_page ]}) None
          (Some {[ "Authorization" := "Bearer " +:+ key;
                   "Content-Type" := "application/json" ]})]).
Proof.
  unfold smarthr_list_relations, __init__. split.
  - intros [-> | ->]; split; reflexivity.
  - intros key -> Hkey. apply String.eqb_neq in Hkey. rewrite Hkey.
    unfold sent, call_list_relations, bind, lift.
    assert (bind_args sig_list_relations
              (method_call (mkCall [] [("page", page); ("per_page", per_page)]))
            = Return (mkBound {[ "self" := receiver; "page" := page;
                                 "per_page" := per_page ]} ∅)) as ->.
    { vm_compute. reflexivity. }
    cbv beta iota.
    assert (arg (mkBound {[ "self" := receiver; "page" := page;
                            "per_page" := per_page ]} ∅) "page" = page)
      as -> by (vm_compute; reflexivity).
    assert (arg (mkBound {[ "self" := receiver; "page" := page;
                            "per_page" := per_page ]} ∅) "per_page" = per_page)
      as -> by (vm_compute; reflexivity).
    unfold list_relations. run_method. cbn [base_url headers].
    destruct (remote w [] _) as [resp|]; [|reflexivity].
    cbn [app fst snd]. repeat (case_match; simplify_eq/=); reflexivity.
Qed.

Lemma list_relations_tool_witness :
  sent (smarthr_list_relations {[ "SMARTHR_API_KEY" := "" ]} (AInt 1) (AInt 100))
    (answering (mkResponse 200 "" (Some (PList []))) (mkDate 2025 3 10)) = [].
Proof.
  apply (proj1 (list_relations_tool {[ "SMARTHR_API_KEY" := "" ]}
                  (answering (mkResponse 200 "" (Some (PList []))) (mkDate 2025 3 10))
                  (AInt 1) (AInt 100))).
  right. reflexivity.
Defined.


(** [delete_job_title] is declared to return nothing, yet after a
    successful DELETE it returns the decoded body of its second request, the
    employment types listing. *)
Theorem delete_job_title_returns_listing self w job_title_id resp listing v :
  first_response w resp ->
  is_http_error (status_code resp) = false ->
  (forall req req', remote w [req] req' = Some listing) ->
  is_http_error (status_code listing) = false ->
  json_body listing = Some v ->
  result (delete_job_title self job_title_id) w = Return v.
Proof.
  intros Hfirst Hstatus Hsecond Hstatus' Hjson.
  unfold delete_job_title. run_method. rewrite Hfirst. cbn [app fst snd].
  rewrite Hstatus, Hsecond. cbn [app fst snd]. by rewrite Hstatus', Hjson.
Qed.

Lemma delete_job_title_returns_listing_witness :
  result (delete_job_title sample_client "7")
    (answering (mkResponse 200 "" (Some (PList [PDict {[ "name" := PStr "正社員" ]}])))
       (mkDate 2025 3 10))
  = Return (PList [PDict {[ "name" := PStr "正社員" ]}]).
Proof.
  apply (delete_job_title_returns_listing sample_client _ "7"
           (mkResponse 200 "" (Some (PList [PDict {[ "name" := PStr "正社員" ]}])))
           (mkResponse 200 "" (Some (PList [PDict {[ "name" := PStr "正社員" ]}])))).
  - intros req. reflexivity.
  - reflexivity.
  - intros req req'. reflexivity.
  - reflexivity.
  - reflexivity.
Defined.
